(** * Moodle-Stalker: notification polling, deduplication and dispatch

    A shallow embedding of
      - src/moodle/moodle_notification_handler.py (MoodleNotificationHandler)
      - src/notification/notification_sender.py   (NotificationSender)
      - src/filters/converter.py                  (clean_converted_text)
    and the properties of the polling / cursor / dispatch core.

    Python objects are records of their attributes, dictionaries are finite
    maps, and every method is a computation in a small monad that threads the
    receiver object, collects the observable events (log records, sleeps,
    calls to the remote collaborators) in chronological order and ends by
    returning, by raising, or by running out of fuel (the two polling loops
    are [while True]). *)

From Stdlib Require Import ZArith String List Ascii Lia DecimalString Sorted.
From stdpp Require Import gmap strings list.

Open Scope Z_scope.
Open Scope string_scope.
Open Scope list_scope.

(** ** Python values *)

(** The JSON scalars that occur as values of a notification or user record. *)
Inductive pyval :=
| PNone
| PInt (n : Z)
| PStr (s : string).

#[global] Instance pyval_eq_dec : EqDecision pyval.
Proof. solve_decision. Defined.

(** A Python [dict] with string keys. *)
Abbreviation dict := (gmap string pyval).

(** A member of the list [notifications] when the answer of the service does
    not keep to its schema: a JSON object, or a JSON value of another type
    (null, a number, a string, a Boolean, an array), given by its text and
    its truth value. *)
Inductive pyobj :=
| Object (d : dict)
| Other (text : string) (truth : bool).

(** Exceptions (all of them subclasses of [Exception]). [RemoteError] stands
    for whatever a remote collaborator raises. *)
Inductive py_exn :=
| TypeError (msg : string)
| KeyError (key : string)
| ValueError (msg : string)
| AttributeError (name : string)
| RemoteError (msg : string).

#[global] Instance py_exn_eq_dec : EqDecision py_exn.
Proof. solve_decision. Defined.

(** [bool(d)] for a dict, [bool(l)] for a list, [bool(s)] for a str. *)
Definition dict_truthy (d : dict) : bool := negb (bool_decide (d = ∅)).

Definition str_truthy (s : string) : bool :=
  match s with EmptyString => false | _ => true end.

(** [d.get(k)]: the value, or [None] when the key is missing. *)
Definition dict_get (d : dict) (k : string) : pyval :=
  match d !! k with Some v => v | None => PNone end.

(** [a > b]. Integers compare numerically, strings lexicographically by code
    point; every other pairing raises [TypeError]. *)
Definition py_gt (a b : pyval) : py_exn + bool :=
  match a, b with
  | PInt x, PInt y => inr (Z.ltb y x)
  | PStr x, PStr y => inr (String.ltb y x)
  | _, _ => inl (TypeError "'>' not supported between instances")
  end.

(** [str(n)] for an int. *)
Definition py_str_of_int (n : Z) : string := NilZero.string_of_int (Z.to_int n).

(** ** Observable events *)

Inductive level := DEBUG | INFO | WARNING | ERROR.

(** One constructor per logging call of the two modules; the arguments are
    the values interpolated into the message. *)
Inductive log_msg :=
| InitializationFailed (e : py_exn)      (* "Initialization failed: {e}" *)
| LoginFailed (e : py_exn)               (* "Failed to log in to Moodle: {e}" *)
| FetchingNotifications                  (* "Fetching notifications from Moodle." *)
| LatestFetched (n : dict)               (* "Latest notification fetched: {n}" *)
| LatestFetchedText (text : string)      (* the same, for an [n] that is no object *)
| NoNotificationsFound                   (* "No notifications found." *)
| FetchFailed (e : py_exn)               (* "Failed to fetch Moodle notifications: {e}" *)
| RetryingIn (delay : Z)                 (* "Retrying in {retry_delay} seconds..." *)
| NoIdField                              (* "Notification does not contain an 'id' field." *)
| FirstNotification (id : pyval)         (* "First notification fetched: ID {id}" *)
| NewNotification (id : pyval)           (* "New notification found: ID {id}" *)
| NoNewNotifications (id last : pyval)   (* "No new notifications. Current ID: .., Last ID: .." *)
| NoNotificationsFetched                 (* "No notifications fetched." *)
| NewestFailed (e : py_exn)              (* "Failed to fetch the newest Moodle notification: {e}" *)
| FetchingUser (uid : Z)                 (* "Fetching user with ID {uid} from Moodle." *)
| UserFetched (u : dict)                 (* "User data fetched: {u}" *)
| NoUserFound (uid : Z)                  (* "No user found with ID {uid}." *)
| UserFetchFailed (uid : Z) (e : py_exn) (* "Failed to fetch user {uid} from Moodle: {e}" *)
| SendingPushbullet                      (* "Sending notification to Pushbullet" *)
| SendingDiscord                         (* "Sending notification to Discord" *)
| NoServiceSelected                      (* "No notification service selected" *)
| SendFailed                             (* "Failed to send notification" *)
| Handled (e : py_exn).                  (* the record written by handle_exceptions *)

Inductive event :=
| Log (lvl : level) (msg : log_msg)
| Sleep (seconds : Z)
| MoodleLogin (username password : string)
| GetUserId
| GetPopupNotifications (uid : Z)
| GetUsersByField (field value : string)
| PushbulletSend (key : pyval) (subject summary : string)
| DiscordSend (subject text summary : string) (fullname picture_url : pyval).

(** ** The monad of methods *)

Inductive result (A : Type) :=
| Ret (a : A)
| Raise (e : py_exn)
| Diverge.
Arguments Ret {A} a.
Arguments Raise {A} e.
Arguments Diverge {A}.

Record run (S A : Type) := Run {
  trace : list event;   (* oldest first *)
  final : S;
  res : result A
}.
Arguments Run {S A}.
Arguments trace {S A}.
Arguments final {S A}.
Arguments res {S A}.

Definition M (S A : Type) : Type := S -> run S A.

Definition ret {S A} (a : A) : M S A := fun s => Run [] s (Ret a).

Definition raise {S A} (e : py_exn) : M S A := fun s => Run [] s (Raise e).

Definition diverge {S A} : M S A := fun s => Run [] s Diverge.

(** Prefixing a run with the events that came before it. *)
Definition after {S A} (tr : list event) (r : run S A) : run S A :=
  match r with
  | Run tr' s x => Run (tr ++ tr') s x
  end.

Definition bind {S A B} (m : M S A) (f : A -> M S B) : M S B :=
  fun s =>
    match m s with
    | Run tr s' (Ret a) => after tr (f a s')
    | Run tr s' (Raise e) => Run tr s' (Raise e)
    | Run tr s' Diverge => Run tr s' Diverge
    end.

(** [try: m  except Exception as e: h e] *)
Definition try_except {S A} (m : M S A) (h : py_exn -> M S A) : M S A :=
  fun s =>
    match m s with
    | Run tr s' (Raise e) => after tr (h e s')
    | r => r
    end.

Definition emit {S} (e : event) : M S unit := fun s => Run [e] s (Ret tt).

Definition gets {S A} (f : S -> A) : M S A := fun s => Run [] s (Ret (f s)).

Definition modify {S} (f : S -> S) : M S unit := fun s => Run [] (f s) (Ret tt).

(** Lifting the outcome of a pure operation that may raise. *)
Definition lift_exn {S A} (x : py_exn + A) : M S A :=
  match x with inl e => raise e | inr a => ret a end.

(** Reading an attribute that may not have been assigned yet. *)
Definition getattr {S A} (name : string) (f : S -> option A) : M S A :=
  fun s => match f s with
           | Some a => Run [] s (Ret a)
           | None => Run [] s (Raise (AttributeError name))
           end.

Declare Scope py_scope.
Delimit Scope py_scope with py.
Notation "x <- m ; k" := (bind m (fun x => k))
  (at level 20, m at level 100, k at level 200, only parsing) : py_scope.
Notation "m ;; k" := (bind m (fun _ => k))
  (at level 100, k at level 200, only parsing, right associativity) : py_scope.
Open Scope py_scope.

Definition log {S} (lvl : level) (msg : log_msg) : M S unit := emit (Log lvl msg).

(** [time.sleep(seconds)] *)
Definition sleep {S} (seconds : Z) : M S unit := emit (Sleep seconds).

(** Running a method of a sub-object stored in an attribute of the receiver. *)
Definition zoom {S T A} (get : S -> T) (set : T -> S -> S) (m : M T A) : M S A :=
  fun s =>
    match m (get s) with
    | Run tr t x => Run tr (set t s) x
    end.

(** [Class(args)]: run [__init__] on a fresh object; the object exists for
    the caller only when [__init__] returns. *)
Definition construct {S T} (fresh : T) (init : M T unit) : M S T :=
  fun s =>
    match init fresh with
    | Run tr obj (Ret _) => Run tr s (Ret obj)
    | Run tr _ (Raise e) => Run tr s (Raise e)
    | Run tr _ Diverge => Run tr s Diverge
    end.

(** ** Collaborators outside the two modules *)

(** Modelled from the spec: [Config.get_config] of [src.utils], which is not
    among the sources. The configuration is a section-scoped key/value
    surface; looking up a key that is absent yields [None] (this is what the
    test [if value := self.config.get_config(section, key)] of
    [_get_config_value] expects). *)
Abbreviation Config := (gmap (string * string) string).

Definition get_config (config : Config) (section key : string) : option string :=
  config !! (section, key).

Definition pyval_of_option (o : option string) : pyval :=
  match o with Some s => PStr s | None => PNone end.

(** The remote collaborators, as oracles: the Moodle web service, the
    Pushbullet client and the Discord webhook. An answer [inl e] (or [Some e]
    where nothing is returned) means that the call raises [e]. The answer of
    [get_popup_notifications] depends on how many such requests were made
    before, so that a service can fail for a while and recover; it is the
    value of [response.get("notifications", [])], a list of JSON objects
    (for lists of other values see [Untyped] below). *)
Record Remote := {
  moodle_api_new : string -> option py_exn;
  moodle_login : string -> string -> string -> py_exn + bool;
  moodle_get_user_id : string -> py_exn + Z;
  moodle_get_popup_notifications : nat -> Z -> py_exn + list dict;
  moodle_get_users_by_field : string -> string -> py_exn + list dict;
  pushbullet_send_notification : pyval -> string -> string -> option py_exn;
  discord_new : pyval -> string -> string -> option py_exn;
  discord_call : string -> string -> string -> pyval -> pyval -> option py_exn
}.

Definition lift_unit {S} (x : option py_exn) : M S unit :=
  match x with Some e => raise e | None => ret tt end.

(** Modelled from the spec: the decorator [handle_exceptions] of [src.utils],
    which is not among the sources. Following section 4.3 ("a sink failure is
    reported (logged) but not re-raised to the caller of dispatch") the
    wrapper runs the function, and when the function raises it logs the
    exception and returns [None] to the caller. *)
Definition handle_exceptions {S A} (m : M S A) : M S (option A) :=
  try_except (a <- m; ret (Some a))
             (fun e => log ERROR (Handled e);; ret None).

(** ** [int(x)] for a configuration value *)

(** A [str] is the list of its characters, each a code point below 256.
    [int] skips white space around the literal: the six ASCII blanks of C's
    [isspace] (tab, line feed, vertical tab, form feed, carriage return,
    space) and, outside ASCII, the Unicode white space U+0085 and U+00A0.
    The separators U+001C to U+001F are white space for [str.strip] but not
    for [int]. *)
Definition is_space (c : ascii) : bool :=
  let n := nat_of_ascii c in
  ((9 <=? n)%nat && (n <=? 13)%nat) || (n =? 32)%nat || (n =? 133)%nat || (n =? 160)%nat.

Definition digit_value (c : ascii) : option Z :=
  let n := nat_of_ascii c in
  if ((48 <=? n)%nat && (n <=? 57)%nat) then Some (Z.of_nat (n - 48)) else None.

(** The digits of the literal, as far as they go: single underscores are
    allowed between two digits; the result is the value, the number of
    digits read and the characters left over. *)
Fixpoint scan_digits (acc : Z) (digits : nat) (after_underscore : bool) (s : list ascii)
    : option (Z * nat * list ascii) :=
  match s with
  | [] => if after_underscore then None else Some (acc, digits, [])
  | c :: s' =>
      match digit_value c with
      | Some d => scan_digits (10 * acc + d) (S digits) false s'
      | None =>
          if Ascii.eqb c "_"
          then if after_underscore then None else scan_digits acc digits true s'
          else if after_underscore then None else Some (acc, digits, s)
      end
  end.

Fixpoint lstrip (s : list ascii) : list ascii :=
  match s with
  | c :: s' => if is_space c then lstrip s' else s
  | [] => []
  end.

Definition strip (s : list ascii) : list ascii := rev (lstrip (rev (lstrip s))).

(** [sys.int_info.default_max_str_digits]: a literal of more digits is
    refused (CPython 3.11). *)
Definition max_str_digits : nat := 4300.

(** [int(x)] where [x] is [None] or a [str]: white space around, a sign, then
    digits to the end. The message of the [ValueError] for a malformed
    literal is given without the [repr] of the literal that Python appends. *)
Definition py_int (x : option string) : py_exn + Z :=
  match x with
  | None =>
      inl (TypeError
             "int() argument must be a string, a bytes-like object or a real number, not 'NoneType'")
  | Some s =>
      let invalid := ValueError "invalid literal for int() with base 10" in
      let body := strip (list_ascii_of_string s) in
      let '(negative, literal) :=
        match body with
        | "+"%char :: ds => (false, ds)
        | "-"%char :: ds => (true, ds)
        | ds => (false, ds)
        end in
      match literal with
      | "_"%char :: _ => inl invalid
      | _ =>
          match scan_digits 0 0 false literal with
          | None => inl invalid
          | Some (n, digits, rest) =>
              if (max_str_digits <? digits)%nat
              then inl (ValueError
                          "Exceeds the limit (4300 digits) for integer string conversion")
              else match digits, rest with
                   | S _, [] => inr (if negative then - n else n)
                   | _, _ => inl invalid
                   end
          end
      end
  end.

(** ** src/moodle/moodle_notification_handler.py *)

Module Moodle.

(** The [MoodleAPI] object held in [self.api]: its base URL and the number
    of notification requests it has issued. *)
Record MoodleAPI := {
  base_url : string;
  requests : nat
}.

(** The attributes of a [MoodleNotificationHandler]. The ones assigned
    inside the [try] of [__init__] are [None] until they are assigned. *)
Record MoodleNotificationHandler := {
  config : Config;
  last_notification_id : pyval;
  logged_in : bool;
  url : option string;
  api : option MoodleAPI;
  username : option string;
  password : option string;
  moodle_user_id : option Z
}.

Definition set_last_notification_id (v : pyval) (h : MoodleNotificationHandler) :=
  {| config := config h; last_notification_id := v; logged_in := logged_in h;
     url := url h; api := api h; username := username h; password := password h;
     moodle_user_id := moodle_user_id h |}.

Definition set_logged_in (b : bool) (h : MoodleNotificationHandler) :=
  {| config := config h; last_notification_id := last_notification_id h; logged_in := b;
     url := url h; api := api h; username := username h; password := password h;
     moodle_user_id := moodle_user_id h |}.

Definition set_url (u : string) (h : MoodleNotificationHandler) :=
  {| config := config h; last_notification_id := last_notification_id h;
     logged_in := logged_in h; url := Some u; api := api h; username := username h;
     password := password h; moodle_user_id := moodle_user_id h |}.

Definition set_api (a : MoodleAPI) (h : MoodleNotificationHandler) :=
  {| config := config h; last_notification_id := last_notification_id h;
     logged_in := logged_in h; url := url h; api := Some a; username := username h;
     password := password h; moodle_user_id := moodle_user_id h |}.

Definition set_username (u : string) (h : MoodleNotificationHandler) :=
  {| config := config h; last_notification_id := last_notification_id h;
     logged_in := logged_in h; url := url h; api := api h; username := Some u;
     password := password h; moodle_user_id := moodle_user_id h |}.

Definition set_password (p : string) (h : MoodleNotificationHandler) :=
  {| config := config h; last_notification_id := last_notification_id h;
     logged_in := logged_in h; url := url h; api := api h; username := username h;
     password := Some p; moodle_user_id := moodle_user_id h |}.

Definition set_moodle_user_id (u : Z) (h : MoodleNotificationHandler) :=
  {| config := config h; last_notification_id := last_notification_id h;
     logged_in := logged_in h; url := url h; api := api h; username := username h;
     password := password h; moodle_user_id := Some u |}.

(** The object after lines 21-23 of [__init__]. *)
Definition fresh (cfg : Config) : MoodleNotificationHandler :=
  {| config := cfg; last_notification_id := PNone; logged_in := false;
     url := None; api := None; username := None; password := None;
     moodle_user_id := None |}.

Section Methods.

Variable remote : Remote.

Abbreviation Meth := (M MoodleNotificationHandler).

(** *** Calls on [self.api] *)

Definition MoodleAPI_new (u : string) : Meth MoodleAPI :=
  lift_unit (moodle_api_new remote u);;
  ret {| base_url := u; requests := 0 |}.

Definition api_login (user pass : string) : Meth bool :=
  a <- getattr "api" api;
  emit (MoodleLogin user pass);;
  lift_exn (moodle_login remote (base_url a) user pass).

Definition api_get_user_id : Meth Z :=
  a <- getattr "api" api;
  emit GetUserId;;
  lift_exn (moodle_get_user_id remote (base_url a)).

Definition api_get_popup_notifications : Meth (list dict) :=
  a <- getattr "api" api;
  uid <- getattr "moodle_user_id" moodle_user_id;
  emit (GetPopupNotifications uid);;
  modify (set_api {| base_url := base_url a; requests := S (requests a) |});;
  lift_exn (moodle_get_popup_notifications remote (requests a) uid).

Definition api_core_user_get_users_by_field (field value : string) : Meth (list dict) :=
  _ <- getattr "api" api;
  emit (GetUsersByField field value);;
  lift_exn (moodle_get_users_by_field remote field value).

(** *** Methods *)

Definition _get_config_value (section key : string) : Meth string :=
  cfg <- gets config;
  let missing :=
    ValueError ("Configuration value '" ++ key ++ "' is missing in section '"
                ++ section ++ "'.")%string in
  match get_config cfg section key with
  | Some value => if str_truthy value then ret value else raise missing
  | None => raise missing
  end.

Definition __login : Meth unit :=
  li <- gets logged_in;
  if negb li then
    try_except
      (u <- _get_config_value "moodle" "MOODLE_USERNAME";
       modify (set_username u);;
       p <- _get_config_value "moodle" "MOODLE_PASSWORD";
       modify (set_password p);;
       ok <- api_login u p;
       if ok : bool then modify (set_logged_in true) else ret tt)
      (fun e => log ERROR (LoginFailed e);; raise e)
  else ret tt.

(** The [try] of [__init__], run on [fresh config]. *)
Definition __init__ : Meth unit :=
  try_except
    (u <- _get_config_value "moodle" "MOODLE_URL";
     modify (set_url u);;
     a <- MoodleAPI_new u;
     modify (set_api a);;
     __login;;
     uid <- api_get_user_id;
     modify (set_moodle_user_id uid))
    (fun e => log ERROR (InitializationFailed e);; raise e).

(** [MoodleNotificationHandler(config)] *)
Definition new {S : Type} (cfg : Config) : M S MoodleNotificationHandler :=
  construct (fresh cfg) __init__.

(** One pass of the [while True] of [fetch_latest_notification]. In the
    [except] branch the loop goes round again with the delay increased. *)
Fixpoint fetch_latest_loop (fuel : nat) (retry_delay : Z) : Meth (option dict) :=
  match fuel with
  | O => diverge
  | S fuel' =>
      try_except
        (log INFO FetchingNotifications;;
         notifications <- api_get_popup_notifications;
         match notifications with
         | latest :: _ => log DEBUG (LatestFetched latest);; ret (Some latest)
         | [] => log INFO NoNotificationsFound;; ret None
         end)
        (fun e =>
           log ERROR (FetchFailed e);;
           log INFO (RetryingIn retry_delay);;
           sleep retry_delay;;
           fetch_latest_loop fuel' (retry_delay + 2))
  end.

Definition fetch_latest_notification (fuel : nat) : Meth (option dict) :=
  fetch_latest_loop fuel 60.

(** Lines 95-125: what [fetch_newest_notification] does with the value that
    [fetch_latest_notification] returned. *)
Definition compare_with_last (fetched : option dict) : Meth (option dict) :=
  match fetched with
  | Some notification =>
      if dict_truthy notification then
        let notification_id := dict_get notification "id" in
        match notification_id with
        | PNone => log WARNING NoIdField;; ret None
        | _ =>
            last <- gets last_notification_id;
            match last with
            | PNone =>
                modify (set_last_notification_id notification_id);;
                log INFO (FirstNotification notification_id);;
                ret (Some notification)
            | _ =>
                newer <- lift_exn (py_gt notification_id last);
                if newer : bool then
                  log INFO (NewNotification notification_id);;
                  modify (set_last_notification_id notification_id);;
                  ret (Some notification)
                else
                  log INFO (NoNewNotifications notification_id last);;
                  ret None
            end
        end
      else log INFO NoNotificationsFetched;; ret None
  | None => log INFO NoNotificationsFetched;; ret None
  end.

(** The [while True] of [fetch_newest_notification]. *)
Fixpoint fetch_newest_loop (fuel : nat) (retry_delay : Z) : Meth (option dict) :=
  match fuel with
  | O => diverge
  | S fuel' =>
      try_except
        (fetched <- fetch_latest_notification fuel';
         compare_with_last fetched)
        (fun e =>
           log ERROR (NewestFailed e);;
           log INFO (RetryingIn retry_delay);;
           sleep retry_delay;;
           fetch_newest_loop fuel' (retry_delay + 2))
  end.

Definition fetch_newest_notification (fuel : nat) : Meth (option dict) :=
  fetch_newest_loop fuel 60.

Definition user_id_from (useridfrom : Z) : Meth (option dict) :=
  try_except
    (log DEBUG (FetchingUser useridfrom);;
     response <- api_core_user_get_users_by_field "id" (py_str_of_int useridfrom);
     match response with
     | user :: _ => log DEBUG (UserFetched user);; ret (Some user)
     | [] => log INFO (NoUserFound useridfrom);; ret None
     end)
    (fun e => log ERROR (UserFetchFailed useridfrom e);; ret None).

End Methods.

End Moodle.

(** ** The fetch on answers that do not keep to the schema *)

(** [Moodle] takes the members of [notifications] to be JSON objects, as the
    web service documents them. [Untyped] is the code of
    [fetch_latest_notification] and [fetch_newest_notification] again, line
    by line, for a service whose list can hold any JSON value: [popup k uid]
    is the value of [response.get("notifications", [])] at request number
    [k], or the exception that the request raises. *)
Module Untyped.

Import Moodle.

(** [bool(x)] *)
Definition truthy (x : pyobj) : bool :=
  match x with
  | Object d => dict_truthy d
  | Other _ truth => truth
  end.

(** [x.get(key)]: only a [dict] has the method. *)
Definition get {S} (x : pyobj) (key : string) : M S pyval :=
  match x with
  | Object d => ret (dict_get d key)
  | Other _ _ => raise (AttributeError "get")
  end.

Definition latest_fetched (x : pyobj) : log_msg :=
  match x with
  | Object d => LatestFetched d
  | Other text _ => LatestFetchedText text
  end.

Section Methods.

Variable popup : nat -> Z -> py_exn + list pyobj.

Abbreviation Meth := (M MoodleNotificationHandler).

Definition api_get_popup_notifications : Meth (list pyobj) :=
  a <- getattr "api" api;
  uid <- getattr "moodle_user_id" moodle_user_id;
  emit (GetPopupNotifications uid);;
  modify (set_api {| base_url := base_url a; requests := S (requests a) |});;
  lift_exn (popup (requests a) uid).

(** Lines 70-86. *)
Fixpoint fetch_latest_loop (fuel : nat) (retry_delay : Z) : Meth (option pyobj) :=
  match fuel with
  | O => diverge
  | S fuel' =>
      try_except
        (log INFO FetchingNotifications;;
         notifications <- api_get_popup_notifications;
         match notifications with
         | latest :: _ => log DEBUG (latest_fetched latest);; ret (Some latest)
         | [] => log INFO NoNotificationsFound;; ret None
         end)
        (fun e =>
           log ERROR (FetchFailed e);;
           log INFO (RetryingIn retry_delay);;
           sleep retry_delay;;
           fetch_latest_loop fuel' (retry_delay + 2))
  end.

Definition fetch_latest_notification (fuel : nat) : Meth (option pyobj) :=
  fetch_latest_loop fuel 60.

(** Lines 95-125. *)
Definition compare_with_last (fetched : option pyobj) : Meth (option pyobj) :=
  match fetched with
  | Some notification =>
      if truthy notification then
        notification_id <- get notification "id";
        match notification_id with
        | PNone => log WARNING NoIdField;; ret None
        | _ =>
            last <- gets last_notification_id;
            match last with
            | PNone =>
                modify (set_last_notification_id notification_id);;
                log INFO (FirstNotification notification_id);;
                ret (Some notification)
            | _ =>
                newer <- lift_exn (py_gt notification_id last);
                if newer : bool then
                  log INFO (NewNotification notification_id);;
                  modify (set_last_notification_id notification_id);;
                  ret (Some notification)
                else
                  log INFO (NoNewNotifications notification_id last);;
                  ret None
            end
        end
      else log INFO NoNotificationsFetched;; ret None
  | None => log INFO NoNotificationsFetched;; ret None
  end.

(** Lines 93-132. *)
Fixpoint fetch_newest_loop (fuel : nat) (retry_delay : Z) : Meth (option pyobj) :=
  match fuel with
  | O => diverge
  | S fuel' =>
      try_except
        (fetched <- fetch_latest_notification fuel';
         compare_with_last fetched)
        (fun e =>
           log ERROR (NewestFailed e);;
           log INFO (RetryingIn retry_delay);;
           sleep retry_delay;;
           fetch_newest_loop fuel' (retry_delay + 2))
  end.

Definition fetch_newest_notification (fuel : nat) : Meth (option pyobj) :=
  fetch_newest_loop fuel 60.

End Methods.

(** The answers of a service that keeps to the schema. *)
Definition of_remote (remote : Remote) : nat -> Z -> py_exn + list pyobj :=
  fun k uid =>
    match moodle_get_popup_notifications remote k uid with
    | inl e => inl e
    | inr l => inr (map Object l)
    end.

(** A run of [Moodle], read as a run of [Untyped]. *)
Definition objects (r : run MoodleNotificationHandler (option dict))
    : run MoodleNotificationHandler (option pyobj) :=
  match r with
  | Run tr h (Ret x) => Run tr h (Ret (option_map Object x))
  | Run tr h (Raise e) => Run tr h (Raise e)
  | Run tr h Diverge => Run tr h Diverge
  end.

End Untyped.

(** ** src/notification/notification_sender.py *)

Module Notification.

(** The [Discord] object held in [self.webhook_discord]. *)
Record Discord := {
  discord_url : pyval;
  discord_bot_name : string;
  discord_thumbnail : string
}.

Record NotificationSender := {
  pushbullet_key : pyval;
  pushbullet_state : Z;
  webhook_url : pyval;
  webhook_state : Z;
  model : pyval;
  bot_name : string;
  thumbnail : string;
  webhook_discord : Discord;
  moodle_handler : Moodle.MoodleNotificationHandler
}.

Definition set_moodle_handler (h : Moodle.MoodleNotificationHandler)
    (s : NotificationSender) : NotificationSender :=
  {| pushbullet_key := pushbullet_key s; pushbullet_state := pushbullet_state s;
     webhook_url := webhook_url s; webhook_state := webhook_state s;
     model := model s; bot_name := bot_name s; thumbnail := thumbnail s;
     webhook_discord := webhook_discord s; moodle_handler := h |}.

(** The identity used when no sender id is given (lines 76-80). *)
Definition default_fullname : pyval := PStr "EvickaStudio".
Definition default_profile_url : pyval :=
  PStr "https://avatars.githubusercontent.com/u/68477970".

(** [x[key]] where [x] is a dict or [None]. *)
Definition subscript {S} (x : option dict) (key : string) : M S pyval :=
  match x with
  | None => raise (TypeError "'NoneType' object is not subscriptable")
  | Some d =>
      match d !! key with
      | Some v => ret v
      | None => raise (KeyError key)
      end
  end.

Section Methods.

Variable remote : Remote.

Abbreviation Meth := (M NotificationSender).

(** [Pushbullet(key).send_notification(subject, summary)] *)
Definition pushbullet_send (key : pyval) (subject summary : string) : Meth unit :=
  emit (PushbulletSend key subject summary);;
  lift_unit (pushbullet_send_notification remote key subject summary).

(** [self.webhook_discord(subject=.., text=.., summary=.., fullname=.., picture_url=..)] *)
Definition discord_send (subject text summary : string)
    (fullname picture_url : pyval) : Meth unit :=
  emit (DiscordSend subject text summary fullname picture_url);;
  lift_unit (discord_call remote subject text summary fullname picture_url).

(** The body of [__init__]; it returns the object it has initialised. *)
Definition init_body (cfg : Config) (bot_name thumbnail : string)
    : M unit NotificationSender :=
  let pushbullet_key := pyval_of_option (get_config cfg "pushbullet" "PUSHBULLET_API_KEY") in
  pushbullet_state <- lift_exn (py_int (get_config cfg "pushbullet" "ENABLED"));
  let webhook_url := pyval_of_option (get_config cfg "discord" "WEBHOOK_URL") in
  webhook_state <- lift_exn (py_int (get_config cfg "discord" "ENABLED"));
  let model := pyval_of_option (get_config cfg "summary" "MODEL") in
  lift_unit (discord_new remote webhook_url bot_name thumbnail);;
  let webhook_discord :=
    {| discord_url := webhook_url; discord_bot_name := bot_name;
       discord_thumbnail := thumbnail |} in
  moodle_handler <- Moodle.new remote cfg;
  ret {| pushbullet_key := pushbullet_key; pushbullet_state := pushbullet_state;
         webhook_url := webhook_url; webhook_state := webhook_state;
         model := model; bot_name := bot_name; thumbnail := thumbnail;
         webhook_discord := webhook_discord; moodle_handler := moodle_handler |}.

(** [NotificationSender(config, bot_name, thumbnail)] with the decorator
    applied: [None] stands for an object whose [__init__] was cut short. *)
Definition new (cfg : Config) (bot_name thumbnail : string)
    : M unit (option NotificationSender) :=
  handle_exceptions (init_body cfg bot_name thumbnail).

(** The body of [send] (lines 60-96). *)
Definition send_body (subject text summary : string) (useridfrom : option Z)
    : Meth unit :=
  try_except
    (pb <- gets pushbullet_state;
     (if (pb =? 1)%Z then
        log INFO SendingPushbullet;;
        key <- gets pushbullet_key;
        pushbullet_send key subject summary
      else ret tt);;
     wh <- gets webhook_state;
     if (wh =? 1)%Z then
       log INFO SendingDiscord;;
       identity <-
         match useridfrom with
         | Some uid =>
             useridfrom_info <-
               zoom moodle_handler set_moodle_handler (Moodle.user_id_from remote uid);
             fullname <- subscript useridfrom_info "fullname";
             profile_url <- subscript useridfrom_info "profileimageurl";
             ret (fullname, profile_url)
         | None => ret (default_fullname, default_profile_url)
         end;
       discord_send subject text summary (fst identity) (snd identity)
     else log INFO NoServiceSelected)
    (fun e => log ERROR SendFailed;; raise e).

(** [send] as callers see it, with the decorator applied. *)
Definition send (subject text summary : string) (useridfrom : option Z)
    : Meth (option unit) :=
  handle_exceptions (send_body subject text summary useridfrom).

End Methods.

End Notification.

(** ** Observations on a run *)

Import Moodle.

(** The verdict of one classification, in the vocabulary of the design:
    each of the five ways out of lines 95-125 writes its own log record. *)
Inductive verdict :=
| Absent
| First (id : pyval)
| New (id : pyval)
| Stale (id : pyval).

Definition verdict_of_event (e : event) : option verdict :=
  match e with
  | Log WARNING NoIdField => Some Absent
  | Log INFO NoNotificationsFetched => Some Absent
  | Log INFO (FirstNotification id) => Some (First id)
  | Log INFO (NewNotification id) => Some (New id)
  | Log INFO (NoNewNotifications id _) => Some (Stale id)
  | _ => None
  end.

Definition verdicts (tr : list event) : list verdict := omap verdict_of_event tr.

Definition sleep_of_event (e : event) : option Z :=
  match e with Sleep d => Some d | _ => None end.

(** The delays slept, in order. *)
Definition sleeps (tr : list event) : list Z := omap sleep_of_event tr.

Definition poll_of_event (e : event) : option Z :=
  match e with GetPopupNotifications uid => Some uid | _ => None end.

(** The notification requests issued, in order. *)
Definition polls (tr : list event) : list Z := omap poll_of_event tr.

Definition delivery_of_event (e : event) : option event :=
  match e with
  | PushbulletSend _ _ _ | DiscordSend _ _ _ _ _ => Some e
  | _ => None
  end.

(** The deliver calls received by the sinks, in order. *)
Definition deliveries (tr : list event) : list event := omap delivery_of_event tr.

Definition discord_of_event (e : event) : option event :=
  match e with DiscordSend _ _ _ _ _ => Some e | _ => None end.

(** The deliver calls received by the Discord sink. *)
Definition discord_deliveries (tr : list event) : list event := omap discord_of_event tr.

Definition warning_of_event (e : event) : option log_msg :=
  match e with Log WARNING m => Some m | _ => None end.

Definition warnings (tr : list event) : list log_msg := omap warning_of_event tr.

Definition returns {S A} (r : run S A) : Prop := exists a, res r = Ret a.

(** The cursor order: an unset cursor is below everything, and a set cursor
    is below the ids that Python's [>] puts above it. *)
Definition cursor_lt (c c' : pyval) : Prop :=
  (c = PNone /\ c' <> PNone) \/ py_gt c' c = inr true.

Definition cursor_le (c c' : pyval) : Prop := c = c' \/ cursor_lt c c'.

(** A polling process: successive calls of [fetch_newest_notification] on
    one handler, each given its own fuel; the process goes on only while the
    calls return. *)
Fixpoint poll_many (remote : Remote) (fuels : list nat) (h : MoodleNotificationHandler)
    : list (run MoodleNotificationHandler (option dict)) :=
  match fuels with
  | [] => []
  | fuel :: fuels' =>
      let r := fetch_newest_notification remote fuel h in
      r :: match res r with
           | Ret _ => poll_many remote fuels' (final r)
           | _ => []
           end
  end.

(** The values of the cursor before the first call and after each call. *)
Definition cursor_history (remote : Remote) (fuels : list nat)
    (h : MoodleNotificationHandler) : list pyval :=
  last_notification_id h
    :: map (fun r => last_notification_id (final r)) (poll_many remote fuels h).

(** Events that are neither a verdict, nor a delivery, nor a warning. *)
Definition quiet_event (e : event) : bool :=
  match verdict_of_event e, delivery_of_event e, warning_of_event e with
  | None, None, None => true
  | _, _, _ => false
  end.

Definition quiet (tr : list event) : Prop := Forall (fun e => quiet_event e = true) tr.

(** The handler after one more notification request. *)
Definition requested (a : MoodleAPI) (h : MoodleNotificationHandler) : MoodleNotificationHandler :=
  set_api {| base_url := base_url a; requests := S (requests a) |} h.

(** What a verdict says about one classification: [c0] and [c1] are the
    cursor before and after, [x] is the value returned. *)
Definition verdict_ok (c0 : pyval) (x : option dict) (c1 : pyval) (v : verdict) : Prop :=
  match v with
  | Absent => x = None /\ c1 = c0
  | First id =>
      c0 = PNone /\ id <> PNone /\ c1 = id
      /\ exists n, x = Some n /\ dict_get n "id" = id
  | New id =>
      c0 <> PNone /\ py_gt id c0 = inr true /\ c1 = id
      /\ exists n, x = Some n /\ dict_get n "id" = id
  | Stale id =>
      c0 <> PNone /\ py_gt id c0 = inr false /\ x = None /\ c1 = c0
  end.

(** ** Sample collaborators and objects *)

Definition notification (id : Z) : dict :=
  {[ "id" := PInt id; "subject" := PStr "Grade posted" ]}.

Definition no_id_notification : dict := {[ "subject" := PStr "Grade posted" ]}.

Definition sample_user : dict :=
  {[ "fullname" := PStr "Ada Lovelace"; "profileimageurl" := PStr "https://moodle.example/ada.png" ]}.

(** A service in which everything succeeds: every poll returns the
    notifications of [feed], user 42 exists. *)
Definition healthy (feed : nat -> list dict) : Remote :=
  {| moodle_api_new := fun _ => None;
     moodle_login := fun _ _ _ => inr true;
     moodle_get_user_id := fun _ => inr 7;
     moodle_get_popup_notifications := fun k _ => inr (feed k);
     moodle_get_users_by_field := fun _ v =>
       if String.eqb v "42" then inr [sample_user] else inr [];
     pushbullet_send_notification := fun _ _ _ => None;
     discord_new := fun _ _ _ => None;
     discord_call := fun _ _ _ _ _ => None |}.

(** The first [k] polls fail, after that [feed] answers. *)
Definition flaky (k : nat) (feed : nat -> list dict) : Remote :=
  {| moodle_api_new := fun _ => None;
     moodle_login := fun _ _ _ => inr true;
     moodle_get_user_id := fun _ => inr 7;
     moodle_get_popup_notifications := fun i _ =>
       if (i <? k)%nat then inl (RemoteError "connection refused") else inr (feed i);
     moodle_get_users_by_field := fun _ _ => inl (RemoteError "connection refused");
     pushbullet_send_notification := fun _ _ _ => None;
     discord_new := fun _ _ _ => None;
     discord_call := fun _ _ _ _ _ => None |}.

(** Pushbullet is down, everything else works. *)
Definition pushbullet_down : Remote :=
  {| moodle_api_new := fun _ => None;
     moodle_login := fun _ _ _ => inr true;
     moodle_get_user_id := fun _ => inr 7;
     moodle_get_popup_notifications := fun _ _ => inr [];
     moodle_get_users_by_field := fun _ _ => inr [sample_user];
     pushbullet_send_notification := fun _ _ _ => Some (RemoteError "pushbullet: 503");
     discord_new := fun _ _ _ => None;
     discord_call := fun _ _ _ _ _ => None |}.

(** Discord is down, everything else works. *)
Definition discord_down : Remote :=
  {| moodle_api_new := fun _ => None;
     moodle_login := fun _ _ _ => inr true;
     moodle_get_user_id := fun _ => inr 7;
     moodle_get_popup_notifications := fun _ _ => inr [];
     moodle_get_users_by_field := fun _ _ => inr [sample_user];
     pushbullet_send_notification := fun _ _ _ => None;
     discord_new := fun _ _ _ => None;
     discord_call := fun _ _ _ _ _ => Some (RemoteError "discord: 429") |}.

Definition moodle_config : Config :=
  {[ ("moodle", "MOODLE_URL") := "https://moodle.example";
     ("moodle", "MOODLE_USERNAME") := "student";
     ("moodle", "MOODLE_PASSWORD") := "secret" ]}.

Definition full_config : Config :=
  {[ ("moodle", "MOODLE_URL") := "https://moodle.example";
     ("moodle", "MOODLE_USERNAME") := "student";
     ("moodle", "MOODLE_PASSWORD") := "secret";
     ("pushbullet", "PUSHBULLET_API_KEY") := "o.key";
     ("pushbullet", "ENABLED") := "1";
     ("discord", "WEBHOOK_URL") := "https://discord.example/hook";
     ("discord", "ENABLED") := "1";
     ("summary", "MODEL") := "gpt" ]}.

(** A handler as [__init__] leaves it, with the cursor at [cursor]. *)
Definition handler (cursor : pyval) : MoodleNotificationHandler :=
  {| config := moodle_config; last_notification_id := cursor; logged_in := true;
     url := Some "https://moodle.example";
     api := Some {| base_url := "https://moodle.example"; requests := 0 |};
     username := Some "student"; password := Some "secret";
     moodle_user_id := Some 7 |}.

(** A sender with the given sink states. *)
Definition sender (pushbullet_state webhook_state : Z) : Notification.NotificationSender :=
  {| Notification.pushbullet_key := PStr "o.key";
     Notification.pushbullet_state := pushbullet_state;
     Notification.webhook_url := PStr "https://discord.example/hook";
     Notification.webhook_state := webhook_state;
     Notification.model := PStr "gpt";
     Notification.bot_name := "MoodleStalker";
     Notification.thumbnail := "https://moodle.example/logo.png";
     Notification.webhook_discord :=
       {| Notification.discord_url := PStr "https://discord.example/hook";
          Notification.discord_bot_name := "MoodleStalker";
          Notification.discord_thumbnail := "https://moodle.example/logo.png" |};
     Notification.moodle_handler := handler PNone |}.

(** ** Further observations and samples *)

Definition lookup_of_event (e : event) : option (string * string) :=
  match e with GetUsersByField field value => Some (field, value) | _ => None end.

(** The user lookups issued, in order. *)
Definition lookups (tr : list event) : list (string * string) := omap lookup_of_event tr.

Definition pushbullet_of_event (e : event) : option event :=
  match e with PushbulletSend _ _ _ => Some e | _ => None end.

(** The deliver calls received by the Pushbullet sink. *)
Definition pushbullet_deliveries (tr : list event) : list event :=
  omap pushbullet_of_event tr.

Definition newest_failure_of_event (e : event) : option py_exn :=
  match e with Log ERROR (NewestFailed x) => Some x | _ => None end.

(** The errors caught by the [except] of [fetch_newest_notification]. *)
Definition newest_failures (tr : list event) : list py_exn := omap newest_failure_of_event tr.

(** The id of the notification that a call handed to its caller. *)
Definition delivered_id (r : run MoodleNotificationHandler (option dict)) : option pyval :=
  match res r with
  | Ret (Some n) => Some (dict_get n "id")
  | _ => None
  end.

Definition delivered_ids (rs : list (run MoodleNotificationHandler (option dict)))
    : list pyval :=
  omap delivered_id rs.

(** A service that refuses every notification request. *)
Definition unreachable : Remote :=
  {| moodle_api_new := fun _ => None;
     moodle_login := fun _ _ _ => inr true;
     moodle_get_user_id := fun _ => inr 7;
     moodle_get_popup_notifications := fun _ _ => inl (RemoteError "connection refused");
     moodle_get_users_by_field := fun _ _ => inl (RemoteError "connection refused");
     pushbullet_send_notification := fun _ _ _ => None;
     discord_new := fun _ _ _ => None;
     discord_call := fun _ _ _ _ _ => None |}.

(** A service whose login answers [False]. *)
Definition login_refused : Remote :=
  {| moodle_api_new := fun _ => None;
     moodle_login := fun _ _ _ => inr false;
     moodle_get_user_id := fun _ => inr 7;
     moodle_get_popup_notifications := fun _ _ => inr [];
     moodle_get_users_by_field := fun _ _ => inr [];
     pushbullet_send_notification := fun _ _ _ => None;
     discord_new := fun _ _ _ => None;
     discord_call := fun _ _ _ _ _ => None |}.



(** A service whose first answer holds a string where a notification
    should be. *)
Definition off_schema : nat -> Z -> py_exn + list pyobj :=
  fun k _ =>
    match k with
    | O => inr [Other "'maintenance'" true]
    | _ => inr [Object (notification 7)]
    end.

Definition is_type_error (e : py_exn) : Prop := exists msg, e = TypeError msg.

(** The exceptions that [fetch_latest_notification] logged as failures of a
    request, and the delays it announced ("Retrying in .. seconds..."). *)
Definition fetch_failure_of_event (e : event) : option py_exn :=
  match e with Log ERROR (FetchFailed x) => Some x | _ => None end.

Definition fetch_failures (tr : list event) : list py_exn := omap fetch_failure_of_event tr.

Definition retry_notice_of_event (e : event) : option Z :=
  match e with Log INFO (RetryingIn d) => Some d | _ => None end.

Definition retry_notices (tr : list event) : list Z := omap retry_notice_of_event tr.

(** ** src/filters/converter.py *)

Module Converter.

(** The regular expressions that the module uses are sequences of literal
    characters and of [.*]. *)
Inductive re_item :=
| Lit (c : ascii)
| AnyStar.

Definition newline : ascii := "010"%char.

(** Matching a pattern at the start of [s], as a backtracking matcher does:
    the result is the text left after the match. [.] is any character but
    the newline, and [.*] is greedy: the longest run is tried first, then
    the shorter ones. *)
Fixpoint match_here (pat : list re_item) (s : list ascii) {struct pat}
    : option (list ascii) :=
  match pat with
  | [] => Some s
  | Lit c :: pat' =>
      match s with
      | x :: s' => if Ascii.eqb x c then match_here pat' s' else None
      | [] => None
      end
  | AnyStar :: pat' =>
      (fix star (s : list ascii) : option (list ascii) :=
         match s with
         | x :: s' =>
             if Ascii.eqb x newline then match_here pat' s
             else match star s' with
                  | Some rest => Some rest
                  | None => match_here pat' s
                  end
         | [] => match_here pat' []
         end) s
  end.

(** [re.sub(pat, "", s)] for a pattern that matches no empty text: the text
    is scanned from the left; where the pattern matches, the matched
    characters are dropped and the scan resumes after them. [skip] counts
    the characters of the current match still to be dropped. *)
Fixpoint re_sub_from (pat : list re_item) (skip : nat) (s : list ascii) : list ascii :=
  match s with
  | [] => []
  | x :: s' =>
      match skip with
      | S k => re_sub_from pat k s'
      | O =>
          match match_here pat s with
          | Some rest => re_sub_from pat (length s - length rest - 1) s'
          | None => x :: re_sub_from pat 0 s'
          end
      end
  end.

Definition re_sub (pat : list re_item) (s : list ascii) : list ascii :=
  re_sub_from pat 0 s.

Fixpoint starts_with (old s : list ascii) : bool :=
  match old, s with
  | [], _ => true
  | c :: old', x :: s' => Ascii.eqb x c && starts_with old' s'
  | _ :: _, [] => false
  end.

(** [s.replace(old, "")] for a non-empty [old]: the occurrences of [old]
    are taken from the left and do not overlap. *)
Fixpoint remove_from (old : list ascii) (skip : nat) (s : list ascii) : list ascii :=
  match s with
  | [] => []
  | x :: s' =>
      match skip with
      | S k => remove_from old k s'
      | O =>
          if starts_with old s then remove_from old (length old - 1) s'
          else x :: remove_from old 0 s'
      end
  end.

Definition str_remove (old s : list ascii) : list ascii := remove_from old 0 s.

(** [reg = r"\[!\[.*\]\(.*\)\]\(.*\)"] *)
Definition reg : list re_item :=
  [Lit "["; Lit "!"; Lit "["; AnyStar; Lit "]"; Lit "("; AnyStar; Lit ")";
   Lit "]"; Lit "("; AnyStar; Lit ")"]%char.

Definition clean_converted_text (text : string) : string :=
  let text := re_sub reg (list_ascii_of_string text) in
  let text := str_remove (list_ascii_of_string "* * *") text in
  string_of_list_ascii text.

(** [convert], over the conversion of [TurndownService] (src.turndown,
    which is not among the sources). *)
Definition convert (turndown : string -> string) (html_content : string) : string :=
  let md_output := turndown html_content in
  clean_converted_text md_output.

End Converter.

(** * Properties *)

(** ** Python's order on ids *)

Lemma ascii_compare_refl (c : ascii) : Ascii.compare c c = Eq.
Proof. unfold Ascii.compare. apply N.compare_refl. Qed.

Lemma ascii_compare_lt_trans (a b c : ascii) :
  Ascii.compare a b = Lt -> Ascii.compare b c = Lt -> Ascii.compare a c = Lt.
Proof.
  unfold Ascii.compare. rewrite !N.compare_lt_iff. intros; etransitivity; eassumption.
Qed.

Lemma string_compare_refl (s : string) : String.compare s s = Eq.
Proof. induction s as [|c s IH]; simpl; [reflexivity | now rewrite ascii_compare_refl]. Qed.

Lemma string_compare_lt_trans (a : string) :
  forall b c, String.compare a b = Lt -> String.compare b c = Lt -> String.compare a c = Lt.
Proof.
  induction a as [|x a IH]; intros [|y b] [|z c]; simpl; try congruence.
  destruct (Ascii.compare x y) eqn:Exy; try discriminate;
    destruct (Ascii.compare y z) eqn:Eyz; try discriminate; intros Hab Hbc.
  - apply Ascii.compare_eq_iff in Exy, Eyz. subst.
    rewrite ascii_compare_refl. eauto.
  - apply Ascii.compare_eq_iff in Exy. subst. now rewrite Eyz.
  - apply Ascii.compare_eq_iff in Eyz. subst. now rewrite Exy.
  - now rewrite (ascii_compare_lt_trans _ _ _ Exy Eyz).
Qed.

Lemma string_ltb_irrefl (s : string) : String.ltb s s = false.
Proof. unfold String.ltb. now rewrite string_compare_refl. Qed.

Lemma string_ltb_trans (a b c : string) :
  String.ltb a b = true -> String.ltb b c = true -> String.ltb a c = true.
Proof.
  unfold String.ltb.
  destruct (String.compare a b) eqn:Eab; try discriminate.
  destruct (String.compare b c) eqn:Ebc; try discriminate.
  now rewrite (string_compare_lt_trans _ _ _ Eab Ebc).
Qed.

Lemma py_gt_irrefl (c : pyval) : py_gt c c <> inr true.
Proof.
  destruct c; simpl; try discriminate.
  - rewrite Z.ltb_irrefl. discriminate.
  - rewrite string_ltb_irrefl. discriminate.
Qed.

Lemma py_gt_trans (a b c : pyval) :
  py_gt b a = inr true -> py_gt c b = inr true -> py_gt c a = inr true.
Proof.
  destruct a, b; simpl; try discriminate; destruct c; simpl; try discriminate;
    intros H1 H2; f_equal; injection H1 as H1; injection H2 as H2.
  - apply Z.ltb_lt. apply Z.ltb_lt in H1, H2. lia.
  - eapply string_ltb_trans; eassumption.
Qed.

Lemma py_gt_not_none (a b : pyval) (x : bool) : py_gt a b = inr x -> a <> PNone /\ b <> PNone.
Proof. destruct a, b; simpl; try discriminate; split; discriminate. Qed.

Lemma cursor_lt_neq (c c' : pyval) : cursor_lt c c' -> c <> c'.
Proof.
  intros [[Hc H] | H] E; subst; [congruence | now apply (py_gt_irrefl c')].
Qed.

Lemma cursor_lt_trans (a b c : pyval) : cursor_lt a b -> cursor_lt b c -> cursor_lt a c.
Proof.
  intros [[-> Hb] | Hab] [[-> Hc] | Hbc].
  - congruence.
  - left. split; [reflexivity | now apply py_gt_not_none in Hbc].
  - now apply py_gt_not_none in Hab.
  - right. eapply py_gt_trans; eassumption.
Qed.

Lemma cursor_le_refl (c : pyval) : cursor_le c c.
Proof. now left. Qed.

Lemma cursor_le_trans (a b c : pyval) : cursor_le a b -> cursor_le b c -> cursor_le a c.
Proof.
  intros [-> | Hab] [-> | Hbc]; try (now left); try (now right).
  right. eapply cursor_lt_trans; eassumption.
Qed.

(** A cursor that is set stays set, and between integers the order is [<=]. *)
Lemma cursor_le_int (a : Z) (c : pyval) :
  cursor_le (PInt a) c -> exists b, c = PInt b /\ a <= b.
Proof.
  intros [<- | [[? _] | H]]; [exists a; split; [reflexivity | lia] | discriminate |].
  destruct c; simpl in H; try discriminate.
  injection H as H. apply Z.ltb_lt in H. eexists; split; [reflexivity | lia].
Qed.

(** ** Dictionaries *)

Lemma dict_get_empty (k : string) : dict_get ∅ k = PNone.
Proof. unfold dict_get. now rewrite lookup_empty. Qed.

Lemma dict_truthy_empty : dict_truthy ∅ = false.
Proof. reflexivity. Qed.

Lemma dict_truthy_nonempty (d : dict) : d <> ∅ -> dict_truthy d = true.
Proof. intros H. unfold dict_truthy. now rewrite bool_decide_eq_false_2. Qed.

Lemma dict_truthy_inv (d : dict) : dict_truthy d = false -> d = ∅.
Proof.
  unfold dict_truthy. intros H. apply negb_false_iff in H.
  now apply bool_decide_eq_true in H.
Qed.

Lemma dict_get_truthy (d : dict) (k : string) : dict_get d k <> PNone -> dict_truthy d = true.
Proof.
  intros H. apply dict_truthy_nonempty. intros ->. now rewrite dict_get_empty in H.
Qed.

(** ** Runs *)

Lemma trace_after {S A} (tr : list event) (r : run S A) :
  trace (after tr r) = tr ++ trace r.
Proof. now destruct r. Qed.

Lemma final_after {S A} (tr : list event) (r : run S A) : final (after tr r) = final r.
Proof. now destruct r. Qed.

Lemma res_after {S A} (tr : list event) (r : run S A) : res (after tr r) = res r.
Proof. now destruct r. Qed.

Ltac after_simpl :=
  rewrite ?trace_after, ?final_after, ?res_after; cbn [app trace final res].

Lemma quiet_app (tr tr' : list event) : quiet tr -> quiet tr' -> quiet (tr ++ tr').
Proof. apply Forall_app_2. Qed.

Lemma quiet_omap {B} (f : event -> option B) (tr : list event) :
  (forall e, quiet_event e = true -> f e = None) -> quiet tr -> omap f tr = [].
Proof.
  intros Hf. induction 1 as [|e tr He _ IH]; [reflexivity |].
  cbn. rewrite (Hf e He). exact IH.
Qed.

Lemma quiet_verdicts (tr : list event) : quiet tr -> verdicts tr = [].
Proof.
  apply quiet_omap. intros e. unfold quiet_event.
  now destruct (verdict_of_event e).
Qed.

Lemma quiet_deliveries (tr : list event) : quiet tr -> deliveries tr = [].
Proof.
  apply quiet_omap. intros e. unfold quiet_event.
  destruct (verdict_of_event e); [discriminate |].
  now destruct (delivery_of_event e).
Qed.

Lemma quiet_warnings (tr : list event) : quiet tr -> warnings tr = [].
Proof.
  apply quiet_omap. intros e. unfold quiet_event.
  destruct (verdict_of_event e); [discriminate |].
  destruct (delivery_of_event e); [discriminate |].
  now destruct (warning_of_event e).
Qed.

(** Unfolding the operations of the monad in a run. *)
Ltac run_step :=
  cbv beta iota zeta delta
    [try_except bind log sleep emit gets modify getattr lift_exn lift_unit
     raise ret diverge zoom construct after];
  cbn [app fst snd].

(** Naming the parts of the runs that a goal still inspects. *)
Ltac run_cases :=
  repeat match goal with
         | |- context [match ?r with Run _ _ _ => _ end] =>
             lazymatch r with
             | context [match _ with Run _ _ _ => _ end] => fail
             | _ => destruct r as [? ? [?|?|]]; cbv beta iota; cbn [app]
             end
         end.

Ltac quiet_list :=
  unfold quiet in *;
  repeat (apply List.Forall_cons; [reflexivity |]); try apply List.Forall_nil;
  try assumption.

(** ** The retrying fetch *)

Section Fetch.

Variable remote : Remote.

(** One pass of the loop of [fetch_latest_notification]. *)
Lemma fetch_latest_loop_eq (fuel : nat) (d : Z) (h : MoodleNotificationHandler) :
  fetch_latest_loop remote (S fuel) d h =
  match api h, moodle_user_id h with
  | None, _ =>
      after [Log INFO FetchingNotifications;
             Log ERROR (FetchFailed (AttributeError "api"));
             Log INFO (RetryingIn d); Sleep d]
            (fetch_latest_loop remote fuel (d + 2) h)
  | Some a, None =>
      after [Log INFO FetchingNotifications;
             Log ERROR (FetchFailed (AttributeError "moodle_user_id"));
             Log INFO (RetryingIn d); Sleep d]
            (fetch_latest_loop remote fuel (d + 2) h)
  | Some a, Some uid =>
      match moodle_get_popup_notifications remote (requests a) uid with
      | inl e =>
          after [Log INFO FetchingNotifications; GetPopupNotifications uid;
                 Log ERROR (FetchFailed e); Log INFO (RetryingIn d); Sleep d]
                (fetch_latest_loop remote fuel (d + 2) (requested a h))
      | inr [] =>
          Run [Log INFO FetchingNotifications; GetPopupNotifications uid;
               Log INFO NoNotificationsFound]
              (requested a h) (Ret None)
      | inr (latest :: _) =>
          Run [Log INFO FetchingNotifications; GetPopupNotifications uid;
               Log DEBUG (LatestFetched latest)]
              (requested a h) (Ret (Some latest))
      end
  end.
Proof.
  unfold after, requested.
  cbn [fetch_latest_loop]. unfold api_get_popup_notifications. run_step.
  destruct (api h) as [a|]; [| run_cases; reflexivity]. run_step.
  destruct (moodle_user_id h) as [uid|]; [| run_cases; reflexivity]. run_step.
  destruct (moodle_get_popup_notifications remote (requests a) uid) as [e|[|n l]];
    run_cases; reflexivity.
Qed.

(** What every run of the retrying fetch satisfies, whatever the service
    does: it never raises, it leaves the cursor alone, it neither classifies
    nor delivers, and a notification it returns was logged as fetched. *)
Lemma fetch_latest_loop_inv (fuel : nat) :
  forall (d : Z) (h : MoodleNotificationHandler),
    let r := fetch_latest_loop remote fuel d h in
    last_notification_id (final r) = last_notification_id h
    /\ quiet (trace r)
    /\ (forall e, res r <> Raise e)
    /\ (forall n, res r = Ret (Some n) -> In (Log DEBUG (LatestFetched n)) (trace r)).
Proof.
  induction fuel as [|fuel IH]; intros d h.
  - simpl. repeat split; [constructor | discriminate | discriminate].
  - cbv zeta. rewrite fetch_latest_loop_eq.
    destruct (api h) as [a|]; [destruct (moodle_user_id h) as [uid|] |].
    + destruct (moodle_get_popup_notifications remote (requests a) uid) as [e|[|n l]].
      * destruct (IH (d + 2) (requested a h)) as (Hc & Hq & Hr & Hn).
        after_simpl. repeat split; auto.
        -- quiet_list.
        -- intros n Hret. do 5 right. auto.
      * simpl. repeat split; [quiet_list | discriminate | discriminate].
      * simpl. repeat split; [quiet_list | discriminate |].
        intros m [= <-]. auto.
    + destruct (IH (d + 2) h) as (Hc & Hq & Hr & Hn).
      after_simpl. repeat split; auto.
      * quiet_list.
      * intros n Hret. do 4 right. auto.
    + destruct (IH (d + 2) h) as (Hc & Hq & Hr & Hn).
      after_simpl. repeat split; auto.
      * quiet_list.
      * intros n Hret. do 4 right. auto.
Qed.

End Fetch.

(** ** The cursor *)

(** Lines 95-125 in closed form. *)
Lemma compare_with_last_eq (fetched : option dict) (h : MoodleNotificationHandler) :
  compare_with_last fetched h =
  match fetched with
  | None => Run [Log INFO NoNotificationsFetched] h (Ret None)
  | Some n =>
      if dict_truthy n then
        match dict_get n "id", last_notification_id h with
        | PNone, _ => Run [Log WARNING NoIdField] h (Ret None)
        | id, PNone =>
            Run [Log INFO (FirstNotification id)] (set_last_notification_id id h)
                (Ret (Some n))
        | id, last =>
            match py_gt id last with
            | inl e => Run [] h (Raise e)
            | inr true =>
                Run [Log INFO (NewNotification id)] (set_last_notification_id id h)
                    (Ret (Some n))
            | inr false => Run [Log INFO (NoNewNotifications id last)] h (Ret None)
            end
        end
      else Run [Log INFO NoNotificationsFetched] h (Ret None)
  end.
Proof.
  destruct fetched as [n|]; [| reflexivity].
  unfold compare_with_last, py_gt.
  destruct (dict_truthy n); [| reflexivity].
  destruct (dict_get n "id") as [|i|s]; [reflexivity | |]; run_step;
    destruct (last_notification_id h) as [|j|t]; run_step; try reflexivity.
  - destruct (j <? i)%Z; reflexivity.
  - destruct (String.ltb t s); reflexivity.
Qed.

Lemma compare_with_last_ret (fetched : option dict) (h : MoodleNotificationHandler)
    (x : option dict) :
  let r := compare_with_last fetched h in
  res r = Ret x ->
  exists e v,
    trace r = [e] /\ verdict_of_event e = Some v
    /\ verdict_ok (last_notification_id h) x (last_notification_id (final r)) v
    /\ (forall n, x = Some n -> fetched = Some n).
Proof.
  cbv zeta. rewrite compare_with_last_eq.
  destruct fetched as [n|].
  2: { intros [= <-]. exists (Log INFO NoNotificationsFetched), Absent. now repeat split. }
  destruct (dict_truthy n).
  2: { intros [= <-]. exists (Log INFO NoNotificationsFetched), Absent. now repeat split. }
  destruct (dict_get n "id") as [|i|s] eqn:Eid.
  - intros [= <-]. exists (Log WARNING NoIdField), Absent. now repeat split.
  - destruct (last_notification_id h) as [|j|t] eqn:Elast.
    + intros [= <-]. exists (Log INFO (FirstNotification (PInt i))), (First (PInt i)).
      simpl. repeat split; try congruence. now exists n.
    + simpl. destruct (j <? i)%Z eqn:Elt; intros [= <-].
      * exists (Log INFO (NewNotification (PInt i))), (New (PInt i)).
        simpl. rewrite Elt. repeat split; try congruence. now exists n.
      * exists (Log INFO (NoNewNotifications (PInt i) (PInt j))), (Stale (PInt i)).
        simpl. rewrite Elt, Elast. repeat split; congruence.
    + discriminate.
  - destruct (last_notification_id h) as [|j|t] eqn:Elast.
    + intros [= <-]. exists (Log INFO (FirstNotification (PStr s))), (First (PStr s)).
      simpl. repeat split; try congruence. now exists n.
    + discriminate.
    + simpl. destruct (String.ltb t s) eqn:Elt; intros [= <-].
      * exists (Log INFO (NewNotification (PStr s))), (New (PStr s)).
        simpl. rewrite Elt. repeat split; try congruence. now exists n.
      * exists (Log INFO (NoNewNotifications (PStr s) (PStr t))), (Stale (PStr s)).
        simpl. rewrite Elt, Elast. repeat split; congruence.
Qed.

Lemma compare_with_last_raise (fetched : option dict) (h : MoodleNotificationHandler)
    (e : py_exn) :
  let r := compare_with_last fetched h in
  res r = Raise e -> trace r = [] /\ final r = h.
Proof.
  cbv zeta. rewrite compare_with_last_eq.
  destruct fetched as [n|]; [| discriminate].
  destruct (dict_truthy n); [| discriminate].
  destruct (dict_get n "id"), (last_notification_id h); try discriminate; simpl;
    try (intros _; now split);
    match goal with |- context [if ?b then _ else _] => destruct b end; discriminate.
Qed.

Lemma compare_with_last_total (fetched : option dict) (h : MoodleNotificationHandler) :
  res (compare_with_last fetched h) <> Diverge.
Proof.
  rewrite compare_with_last_eq.
  destruct fetched as [n|]; [| discriminate].
  destruct (dict_truthy n); [| discriminate].
  destruct (dict_get n "id"), (last_notification_id h); try discriminate; simpl;
    match goal with |- context [if ?b then _ else _] => destruct b end; discriminate.
Qed.

Section Newest.

Variable remote : Remote.

(** One pass of the loop of [fetch_newest_notification]. *)
Lemma fetch_newest_loop_eq (fuel : nat) (d : Z) (h : MoodleNotificationHandler) :
  fetch_newest_loop remote (S fuel) d h =
  let r1 := fetch_latest_notification remote fuel h in
  match res r1 with
  | Ret fetched =>
      let r2 := compare_with_last fetched (final r1) in
      match res r2 with
      | Raise e =>
          let r3 := fetch_newest_loop remote fuel (d + 2) (final r2) in
          Run ((trace r1 ++ trace r2)
                 ++ Log ERROR (NewestFailed e) :: Log INFO (RetryingIn d) :: Sleep d
                 :: trace r3)
              (final r3) (res r3)
      | _ => Run (trace r1 ++ trace r2) (final r2) (res r2)
      end
  | Raise e =>
      let r3 := fetch_newest_loop remote fuel (d + 2) (final r1) in
      Run (trace r1 ++ Log ERROR (NewestFailed e) :: Log INFO (RetryingIn d) :: Sleep d
             :: trace r3)
          (final r3) (res r3)
  | Diverge => Run (trace r1) (final r1) Diverge
  end.
Proof.
  cbn [fetch_newest_loop]. run_step.
  destruct (fetch_latest_notification remote fuel h) as [t1 h1 [fetched|e|]];
    cbn [res trace final].
  - destruct (compare_with_last fetched h1) as [t2 h2 [x|e|]]; cbn [res trace final];
      run_cases; reflexivity.
  - run_cases; reflexivity.
  - reflexivity.
Qed.

(** What every run of [fetch_newest_notification] satisfies: it never raises;
    when it returns, its trace ends with the one record that carries the
    verdict, and cursor, verdict and returned value agree; while it has not
    returned, the cursor is as it was. *)
Lemma fetch_newest_loop_inv (fuel : nat) :
  forall (d : Z) (h : MoodleNotificationHandler),
    let r := fetch_newest_loop remote fuel d h in
    match res r with
    | Ret x =>
        exists tr e v,
          trace r = tr ++ [e] /\ quiet tr /\ verdict_of_event e = Some v
          /\ verdict_ok (last_notification_id h) x (last_notification_id (final r)) v
          /\ (forall n, x = Some n -> In (Log DEBUG (LatestFetched n)) tr)
    | Raise _ => False
    | Diverge => quiet (trace r) /\ last_notification_id (final r) = last_notification_id h
    end.
Proof.
  induction fuel as [|fuel IH]; intros d h.
  - simpl. split; [constructor | reflexivity].
  - cbv zeta. rewrite fetch_newest_loop_eq. cbv zeta.
    destruct (fetch_latest_loop_inv remote fuel 60 h) as (Hc1 & Hq1 & Hr1 & Hn1).
    fold (fetch_latest_notification remote fuel h) in Hc1, Hq1, Hr1, Hn1.
    destruct (res (fetch_latest_notification remote fuel h)) as [fetched|e|] eqn:E1.
    + destruct (res (compare_with_last fetched _)) as [x|e|] eqn:E2.
      * cbn [res trace final].
        destruct (compare_with_last_ret _ _ _ E2) as (e & v & Ht & Hv & Hok & Hx).
        exists (trace (fetch_latest_notification remote fuel h)), e, v.
        rewrite Ht, <- Hc1. repeat split; auto.
        intros n ->. apply Hn1. now rewrite (Hx n eq_refl).
      * destruct (compare_with_last_raise _ _ _ E2) as (Ht & Hf).
        rewrite Ht, Hf. cbn [res trace final].
        specialize (IH (d + 2) (final (fetch_latest_notification remote fuel h))).
        cbv zeta in IH.
        destruct (res (fetch_newest_loop remote fuel (d + 2) _)) as [x| |].
        -- destruct IH as (tr & e' & v & Ht' & Hq & Hv & Hok & Hx).
           exists ((trace (fetch_latest_notification remote fuel h) ++ [])
                     ++ Log ERROR (NewestFailed e) :: Log INFO (RetryingIn d)
                     :: Sleep d :: tr), e', v.
           rewrite Ht', <- Hc1. repeat split; auto.
           ++ now rewrite <- !app_assoc.
           ++ repeat apply quiet_app; auto; [constructor | quiet_list; exact Hq].
           ++ intros n Hn. apply in_or_app. right. do 3 right. auto.
        -- exact IH.
        -- destruct IH as (Hq & Hc). rewrite Hc, Hc1. split; [| reflexivity].
           repeat apply quiet_app; auto; [constructor | quiet_list; exact Hq].
      * now apply compare_with_last_total in E2.
    + destruct (Hr1 e eq_refl).
    + cbn [res trace final]. now split.
Qed.

(** With the handler initialised and the service answering, the first pass
    of both loops is the only one. *)
Lemma fetch_newest_answered (fuel : nat) (h : MoodleNotificationHandler)
    (a : MoodleAPI) (uid : Z) (l : list dict) :
  api h = Some a -> moodle_user_id h = Some uid ->
  moodle_get_popup_notifications remote (requests a) uid = inr l ->
  let r := compare_with_last (head l) (requested a h) in
  (forall e, res r <> Raise e) ->
  fetch_newest_notification remote (S (S fuel)) h =
  Run ([Log INFO FetchingNotifications; GetPopupNotifications uid;
        match l with
        | latest :: _ => Log DEBUG (LatestFetched latest)
        | [] => Log INFO NoNotificationsFound
        end] ++ trace r)
      (final r) (res r).
Proof.
  intros Ha Hu Hl r Hr. subst r. unfold fetch_newest_notification.
  rewrite fetch_newest_loop_eq. cbv zeta.
  unfold fetch_latest_notification. rewrite fetch_latest_loop_eq, Ha, Hu, Hl.
  destruct l as [|n l]; cbn [res trace final head] in *;
    (destruct (res (compare_with_last _ (requested a h))) as [x|e|] eqn:E;
     [reflexivity | destruct (Hr e eq_refl) | reflexivity]).
Qed.

End Newest.

(** ** Claims about the cursor *)

Lemma verdicts_last (tr : list event) (e : event) (v : verdict) :
  quiet tr -> verdict_of_event e = Some v -> verdicts (tr ++ [e]) = [v].
Proof.
  intros Hq Hv. unfold verdicts. rewrite omap_app.
  fold (verdicts tr). rewrite (quiet_verdicts _ Hq). cbn. now rewrite Hv.
Qed.

(** C3. The classifier, as a function of the cursor and of the id of the
    fetched notification [n]: with the cursor unset the verdict is First and
    the cursor becomes the id; with the cursor at [last], an id above [last]
    gives New and the cursor becomes the id, an id at or below [last] gives
    Stale and leaves the handler as it was. In particular, at cursor 5 the
    ids 5 and 3 are Stale and the id 7 is New with the cursor moving to 7. *)
Theorem classifier_first_new_stale (h : MoodleNotificationHandler) (n : dict) (id : Z)
    (Hid : dict_get n "id" = PInt id) :
  let r := compare_with_last (Some n) h in
  (last_notification_id h = PNone ->
     verdicts (trace r) = [First (PInt id)]
     /\ last_notification_id (final r) = PInt id
     /\ final r = set_last_notification_id (PInt id) h)
  /\ (forall last, last_notification_id h = PInt last -> last < id ->
        verdicts (trace r) = [New (PInt id)]
        /\ last_notification_id (final r) = PInt id
        /\ final r = set_last_notification_id (PInt id) h)
  /\ (forall last, last_notification_id h = PInt last -> id <= last ->
        verdicts (trace r) = [Stale (PInt id)] /\ final r = h)
  /\ (last_notification_id h = PInt 5 ->
        (id = 5 \/ id = 3 -> verdicts (trace r) = [Stale (PInt id)] /\ final r = h)
        /\ (id = 7 -> verdicts (trace r) = [New (PInt 7)]
                      /\ last_notification_id (final r) = PInt 7)).
Proof.
  assert (Ht : dict_truthy n = true) by (apply (dict_get_truthy n "id"); congruence).
  assert (Hnew : forall last, last_notification_id h = PInt last -> last < id ->
            compare_with_last (Some n) h =
            Run [Log INFO (NewNotification (PInt id))]
                (set_last_notification_id (PInt id) h) (Ret (Some n))).
  { intros last Hl Hlt. rewrite compare_with_last_eq, Ht, Hid, Hl. simpl.
    apply Z.ltb_lt in Hlt. now rewrite Hlt. }
  assert (Hstale : forall last, last_notification_id h = PInt last -> id <= last ->
            compare_with_last (Some n) h =
            Run [Log INFO (NoNewNotifications (PInt id) (PInt last))] h (Ret None)).
  { intros last Hl Hle. rewrite compare_with_last_eq, Ht, Hid, Hl. simpl.
    apply Z.ltb_ge in Hle. now rewrite Hle. }
  cbv zeta. split; [| split; [| split; [| split]]].
  - intros Hl. rewrite compare_with_last_eq, Ht, Hid, Hl. now repeat split.
  - intros last Hl Hlt. rewrite (Hnew last Hl Hlt). now repeat split.
  - intros last Hl Hle. rewrite (Hstale last Hl Hle). now split.
  - intros [-> | ->]; rewrite (Hstale 5 H ltac:(lia)); now split.
  - intros ->. rewrite (Hnew 5 H ltac:(lia)). now split.
Qed.

(** C3, at cursor 5 and id 7. *)
Lemma classifier_first_new_stale_witness :
  verdicts (trace (compare_with_last (Some (notification 7)) (handler (PInt 5))))
    = [New (PInt 7)]
  /\ last_notification_id (final (compare_with_last (Some (notification 7)) (handler (PInt 5))))
    = PInt 7.
Proof.
  pose proof (classifier_first_new_stale (handler (PInt 5)) (notification 7) 7 eq_refl) as H.
  destruct H as (_ & H & _).
  destruct (H 5 eq_refl ltac:(lia)) as (Hv & Hc & _).
  split; [exact Hv | exact Hc].
Defined.

(** The verdict, the cursor and the returned value of a call. *)
Lemma fetch_newest_outcome (remote : Remote) (fuel : nat) (h : MoodleNotificationHandler) :
  let r := fetch_newest_notification remote fuel h in
  match res r with
  | Ret x =>
      exists v, verdicts (trace r) = [v]
        /\ verdict_ok (last_notification_id h) x (last_notification_id (final r)) v
        /\ (forall n, x = Some n -> In (Log DEBUG (LatestFetched n)) (trace r))
  | Raise _ => False
  | Diverge =>
      verdicts (trace r) = []
      /\ last_notification_id (final r) = last_notification_id h
  end.
Proof.
  cbv zeta. unfold fetch_newest_notification.
  pose proof (fetch_newest_loop_inv remote fuel 60 h) as H. cbv zeta in H.
  destruct (res (fetch_newest_loop remote fuel 60 h)) as [x|e|].
  - destruct H as (tr & e & v & Ht & Hq & Hv & Hok & Hn).
    exists v. rewrite Ht. repeat split; auto.
    + now apply verdicts_last.
    + intros n Hx. apply in_or_app. left. auto.
  - exact H.
  - destruct H as (Hq & Hc). split; [now apply quiet_verdicts | exact Hc].
Qed.

Lemma verdict_ok_le (c0 c1 : pyval) (x : option dict) (v : verdict) :
  verdict_ok c0 x c1 v -> cursor_le c0 c1.
Proof.
  destruct v; simpl.
  - intros (_ & ->). apply cursor_le_refl.
  - intros (-> & Hid & -> & _). right. left. now split.
  - intros (_ & Hgt & -> & _). right. now right.
  - intros (_ & _ & _ & ->). apply cursor_le_refl.
Qed.

Lemma fetch_newest_cursor_le (remote : Remote) (fuel : nat) (h : MoodleNotificationHandler) :
  cursor_le (last_notification_id h)
            (last_notification_id (final (fetch_newest_notification remote fuel h))).
Proof.
  pose proof (fetch_newest_outcome remote fuel h) as H. cbv zeta in H.
  destruct (res (fetch_newest_notification remote fuel h)) as [x|e|].
  - destruct H as (v & _ & Hok & _). eapply verdict_ok_le; eassumption.
  - contradiction.
  - destruct H as (_ & ->). apply cursor_le_refl.
Qed.

Lemma cursor_history_sorted (remote : Remote) (fuels : list nat) :
  forall h, StronglySorted cursor_le (cursor_history remote fuels h).
Proof.
  unfold cursor_history.
  induction fuels as [|fuel fuels IH]; intros h.
  - simpl. constructor; constructor.
  - cbn [poll_many map].
    pose proof (fetch_newest_cursor_le remote fuel h) as Hle.
    set (r := fetch_newest_notification remote fuel h) in *.
    assert (Hs : StronglySorted cursor_le
                   (last_notification_id (final r)
                      :: map (fun r => last_notification_id (final r))
                           match res r with
                           | Ret _ => poll_many remote fuels (final r)
                           | _ => []
                           end)).
    { destruct (res r); [apply IH | |]; constructor; constructor. }
    constructor; [exact Hs |].
    constructor; [exact Hle |].
    apply StronglySorted_inv in Hs. destruct Hs as (_ & Hall).
    eapply List.Forall_impl; [| exact Hall].
    intros c Hc. eapply cursor_le_trans; eassumption.
Qed.

(** C4. Over every sequence of calls on one handler the successive values
    of the cursor are sorted for the cursor order (unset first, then
    increasing ids). In a single call the cursor moves strictly up exactly
    when the verdict is First or New, and then to the id of that verdict; on
    Absent, on Stale and while no classification has happened (the fetch is
    still failing) it is unchanged; the retrying fetch itself never touches
    it. Between integers the cursor order is [<=]. *)
Theorem cursor_monotone (remote : Remote) :
  (forall fuels h, StronglySorted cursor_le (cursor_history remote fuels h))
  /\ (forall fuel h,
        let r := fetch_newest_notification remote fuel h in
        let c0 := last_notification_id h in
        let c1 := last_notification_id (final r) in
        (verdicts (trace r) = [] \/ verdicts (trace r) = [Absent]
         \/ exists id, verdicts (trace r) = [First id] \/ verdicts (trace r) = [New id]
                       \/ verdicts (trace r) = [Stale id])
        /\ (forall id, verdicts (trace r) = [First id] \/ verdicts (trace r) = [New id] ->
              cursor_lt c0 c1 /\ c1 = id)
        /\ (verdicts (trace r) = [] \/ verdicts (trace r) = [Absent]
            \/ (exists id, verdicts (trace r) = [Stale id]) -> c1 = c0)
        /\ (c1 <> c0 ->
              exists id, verdicts (trace r) = [First id] \/ verdicts (trace r) = [New id]))
  /\ (forall fuel h,
        last_notification_id (final (fetch_latest_notification remote fuel h))
        = last_notification_id h)
  /\ (forall a c, cursor_le (PInt a) c -> exists b, c = PInt b /\ a <= b).
Proof.
  split; [apply cursor_history_sorted |].
  split; [| split; [intros fuel h; apply (fetch_latest_loop_inv remote fuel 60 h)
                   | apply cursor_le_int]].
  intros fuel h. cbv zeta.
  pose proof (fetch_newest_outcome remote fuel h) as H. cbv zeta in H.
  destruct (res (fetch_newest_notification remote fuel h)) as [x|e|]; [| contradiction |].
  - destruct H as (v & Hv & Hok & _). rewrite Hv.
    destruct v as [|id|id|id]; simpl in Hok.
    + destruct Hok as (_ & Hc).
      split; [| split; [| split]].
      * right. now left.
      * intros i [Hi | Hi]; discriminate Hi.
      * intros _. exact Hc.
      * intros Hne. contradiction.
    + destruct Hok as (Hc0 & Hid & Hc1 & _).
      split; [| split; [| split]].
      * right. right. exists id. now left.
      * intros i [Hi | Hi]; [| discriminate Hi]. injection Hi as <-.
        split; [| exact Hc1]. left. rewrite Hc0, Hc1. now split.
      * intros [Hi | [Hi | (i & Hi)]]; discriminate Hi.
      * intros _. exists id. now left.
    + destruct Hok as (Hc0 & Hgt & Hc1 & _).
      split; [| split; [| split]].
      * right. right. exists id. right. now left.
      * intros i [Hi | Hi]; [discriminate Hi |]. injection Hi as <-.
        split; [| exact Hc1]. right. now rewrite Hc1.
      * intros [Hi | [Hi | (i & Hi)]]; discriminate Hi.
      * intros _. exists id. now right.
    + destruct Hok as (_ & _ & _ & Hc).
      split; [| split; [| split]].
      * right. right. exists id. right. now right.
      * intros i [Hi | Hi]; discriminate Hi.
      * intros _. exact Hc.
      * intros Hne. contradiction.
  - destruct H as (Hv & Hc). rewrite Hv.
    split; [| split; [| split]].
    + now left.
    + intros i [Hi | Hi]; discriminate Hi.
    + intros _. exact Hc.
    + intros Hne. contradiction.
Qed.

(** C4, on a feed that shows the ids 5, 3, 7 in turn: the cursor goes
    unset, 5, 5, 7, and the call that sees 7 at cursor 5 moves it up. *)
Lemma cursor_monotone_witness :
  let remote :=
    healthy (fun k => match k with
                      | O => [notification 5]
                      | S O => [notification 3]
                      | _ => [notification 7]
                      end) in
  cursor_history remote [2; 2; 2]%nat (handler PNone) = [PNone; PInt 5; PInt 5; PInt 7]
  /\ StronglySorted cursor_le [PNone; PInt 5; PInt 5; PInt 7]
  /\ cursor_lt (PInt 5) (PInt 7)
  /\ (exists b, PInt 7 = PInt b /\ 5 <= b).
Proof.
  intros remote.
  destruct (cursor_monotone (healthy (fun _ => [notification 7]))) as (_ & Hcall & _ & Hint).
  split; [reflexivity |].
  split; [exact (proj1 (cursor_monotone remote) [2; 2; 2]%nat (handler PNone)) |].
  split.
  - exact (proj1 (proj1 (proj2 (Hcall 2%nat (handler (PInt 5)))) (PInt 7)
                    (or_intror eq_refl))).
  - apply Hint. right. right. reflexivity.
Defined.

(** ** Claims about the retrying fetch *)

(** The delays slept before the [k]-th retry succeeds, from the delay [d]. *)
Lemma backoff_delays_step (d : Z) (k : nat) :
  d :: map (fun i => d + 2 + 2 * Z.of_nat i) (seq 0 k)
  = map (fun i => d + 2 * Z.of_nat i) (seq 0 (S k)).
Proof.
  cbn [seq map]. f_equal; [lia |].
  rewrite <- seq_shift, map_map. apply map_ext. intros i. lia.
Qed.

(** If the service fails [k] times and then answers [v], the retrying fetch
    (given fuel for [k + 1] passes) returns the first notification of [v],
    having slept [d], [d + 2], ..., [d + 2 (k - 1)] and issued [k + 1]
    requests. *)
Lemma fetch_latest_backoff (remote : Remote) (k : nat) :
  forall (fuel : nat) (d : Z) (h : MoodleNotificationHandler) (a : MoodleAPI)
         (uid : Z) (v : list dict),
    api h = Some a -> moodle_user_id h = Some uid ->
    (forall i, (i < k)%nat ->
       exists e, moodle_get_popup_notifications remote (requests a + i) uid = inl e) ->
    moodle_get_popup_notifications remote (requests a + k) uid = inr v ->
    (k < fuel)%nat ->
    let r := fetch_latest_loop remote fuel d h in
    res r = Ret (head v)
    /\ sleeps (trace r) = map (fun i => d + 2 * Z.of_nat i) (seq 0 k)
    /\ polls (trace r) = repeat uid (S k).
Proof.
  induction k as [|k IH]; intros fuel d h a uid v Ha Hu Hfail Hok Hfuel;
    (destruct fuel as [|fuel]; [lia |]); cbv zeta;
    rewrite fetch_latest_loop_eq, Ha, Hu.
  - rewrite Nat.add_0_r in Hok. rewrite Hok.
    destruct v as [|n v]; repeat split.
  - destruct (Hfail 0%nat ltac:(lia)) as (e & He).
    rewrite Nat.add_0_r in He. rewrite He.
    specialize (IH fuel (d + 2) (requested a h)
                  {| base_url := base_url a; requests := S (requests a) |} uid v
                  eq_refl Hu).
    cbv zeta in IH. destruct IH as (Hr & Hs & Hp).
    + intros i Hi. destruct (Hfail (S i) ltac:(lia)) as (e' & He').
      exists e'. cbn [requests]. now rewrite <- He', Nat.add_succ_r.
    + cbn [requests]. now rewrite <- Hok, Nat.add_succ_r.
    + lia.
    + after_simpl. split; [exact Hr |]. split.
      * unfold sleeps in *. cbn. rewrite Hs. apply backoff_delays_step.
      * unfold polls in *. cbn. now rewrite Hp.
Qed.

(** C5. Against a service that fails on the first two requests and answers
    [v] on the third, [fetch_latest_notification] (given fuel for three
    passes) returns the first notification of [v] (or [None] if [v] is
    empty) without raising, after exactly two sleeps of 60 and then 62
    seconds and three requests. More generally after [k] failures it has
    slept 60, 62, ..., 60 + 2 (k - 1): neither the number of retries nor the
    delay is capped. *)
Theorem fetch_latest_fails_twice (remote : Remote) (h : MoodleNotificationHandler)
    (a : MoodleAPI) (uid : Z)
    (Ha : api h = Some a) (Hu : moodle_user_id h = Some uid) :
  (forall (fuel : nat) (e1 e2 : py_exn) (v : list dict),
     moodle_get_popup_notifications remote (requests a) uid = inl e1 ->
     moodle_get_popup_notifications remote (requests a + 1) uid = inl e2 ->
     moodle_get_popup_notifications remote (requests a + 2) uid = inr v ->
     (3 <= fuel)%nat ->
     let r := fetch_latest_notification remote fuel h in
     res r = Ret (head v) /\ sleeps (trace r) = [60; 62] /\ polls (trace r) = [uid; uid; uid])
  /\ (forall (k fuel : nat) (v : list dict),
        (forall i, (i < k)%nat ->
           exists e, moodle_get_popup_notifications remote (requests a + i) uid = inl e) ->
        moodle_get_popup_notifications remote (requests a + k) uid = inr v ->
        (k < fuel)%nat ->
        let r := fetch_latest_notification remote fuel h in
        res r = Ret (head v)
        /\ sleeps (trace r) = map (fun i => 60 + 2 * Z.of_nat i) (seq 0 k)
        /\ length (sleeps (trace r)) = k).
Proof.
  split.
  - intros fuel e1 e2 v H1 H2 H3 Hfuel.
    apply (fetch_latest_backoff remote 2 fuel 60 h a uid v Ha Hu); [| exact H3 | lia].
    intros i Hi. destruct i as [|[|i]]; [| | lia].
    + exists e1. now rewrite Nat.add_0_r.
    + now exists e2.
  - intros k fuel v Hfail Hok Hfuel. cbv zeta.
    destruct (fetch_latest_backoff remote k fuel 60 h a uid v Ha Hu Hfail Hok Hfuel)
      as (Hr & Hs & _).
    unfold fetch_latest_notification. repeat split; [exact Hr | exact Hs |].
    rewrite Hs. now rewrite length_map, length_seq.
Qed.

(** C5, on a service whose first two requests are refused. *)
Lemma fetch_latest_fails_twice_witness :
  let r := fetch_latest_notification (flaky 2 (fun _ => [notification 7])) 3 (handler PNone) in
  res r = Ret (Some (notification 7))
  /\ sleeps (trace r) = [60; 62]
  /\ polls (trace r) = [7; 7; 7].
Proof.
  exact (proj1 (fetch_latest_fails_twice (flaky 2 (fun _ => [notification 7]))
                  (handler PNone) _ 7 eq_refl eq_refl)
           3%nat _ _ _ eq_refl eq_refl eq_refl (le_n 3)).
Defined.

(** ** Claims about what reaches the classifier *)

(** C8. Whatever the cursor, when the service answers a request with no
    notifications, [fetch_newest_notification] (given fuel for one pass of
    each loop) returns [None] with the verdict Absent, the cursor is as it
    was, and no sink has been called. *)
Theorem no_notifications_absent (remote : Remote) (fuel : nat)
    (h : MoodleNotificationHandler) (a : MoodleAPI) (uid : Z)
    (Ha : api h = Some a) (Hu : moodle_user_id h = Some uid)
    (Hempty : moodle_get_popup_notifications remote (requests a) uid = inr []) :
  let r := fetch_newest_notification remote (S (S fuel)) h in
  res r = Ret None
  /\ verdicts (trace r) = [Absent]
  /\ last_notification_id (final r) = last_notification_id h
  /\ deliveries (trace r) = []
  /\ trace r = [Log INFO FetchingNotifications; GetPopupNotifications uid;
                Log INFO NoNotificationsFound; Log INFO NoNotificationsFetched].
Proof.
  cbv zeta.
  rewrite (fetch_newest_answered remote fuel h a uid [] Ha Hu Hempty);
    [| discriminate].
  now repeat split.
Qed.

(** C8, at cursor 5 and with the cursor unset. *)
Lemma no_notifications_absent_witness :
  let remote := healthy (fun _ => []) in
  (res (fetch_newest_notification remote 2 (handler (PInt 5))) = Ret None
   /\ verdicts (trace (fetch_newest_notification remote 2 (handler (PInt 5)))) = [Absent]
   /\ last_notification_id (final (fetch_newest_notification remote 2 (handler (PInt 5))))
      = PInt 5)
  /\ (res (fetch_newest_notification remote 2 (handler PNone)) = Ret None
      /\ last_notification_id (final (fetch_newest_notification remote 2 (handler PNone)))
         = PNone).
Proof.
  intros remote. split.
  - destruct (no_notifications_absent remote 0 (handler (PInt 5)) _ 7 eq_refl eq_refl eq_refl)
      as (Hr & Hv & Hc & _).
    split; [exact Hr | split; [exact Hv | exact Hc]].
  - destruct (no_notifications_absent remote 0 (handler PNone) _ 7 eq_refl eq_refl eq_refl)
      as (Hr & _ & Hc & _).
    split; [exact Hr | exact Hc].
Defined.

(** What the code does with a fetched notification that has no id, whatever
    the cursor: [fetch_newest_notification] (given fuel for one pass of each
    loop) returns [None] with the verdict Absent, raises nothing, leaves the
    handler's cursor as it was and calls no sink. The warning
    "Notification does not contain an 'id' field." is logged when the
    notification object is not empty; the empty object is falsy, never
    reaches that test and is reported as "No notifications fetched." *)
Lemma missing_id_absent (remote : Remote) (fuel : nat)
    (h : MoodleNotificationHandler) (a : MoodleAPI) (uid : Z) (n : dict) (l : list dict)
    (Ha : api h = Some a) (Hu : moodle_user_id h = Some uid)
    (Hfetch : moodle_get_popup_notifications remote (requests a) uid = inr (n :: l))
    (Hid : dict_get n "id" = PNone) :
  let r := fetch_newest_notification remote (S (S fuel)) h in
  res r = Ret None
  /\ verdicts (trace r) = [Absent]
  /\ last_notification_id (final r) = last_notification_id h
  /\ deliveries (trace r) = []
  /\ (n <> ∅ -> warnings (trace r) = [NoIdField])
  /\ (n = ∅ -> warnings (trace r) = []
               /\ In (Log INFO NoNotificationsFetched) (trace r)).
Proof.
  cbv zeta.
  assert (Hc : compare_with_last (Some n) (requested a h) =
               if dict_truthy n
               then Run [Log WARNING NoIdField] (requested a h) (Ret None)
               else Run [Log INFO NoNotificationsFetched] (requested a h) (Ret None)).
  { rewrite compare_with_last_eq, Hid. reflexivity. }
  rewrite (fetch_newest_answered remote fuel h a uid (n :: l) Ha Hu Hfetch);
    cbn [head]; rewrite Hc.
  2: { destruct (dict_truthy n); discriminate. }
  split; [now destruct (dict_truthy n) |].
  split; [now destruct (dict_truthy n) |].
  split; [now destruct (dict_truthy n) |].
  split; [now destruct (dict_truthy n) |].
  split.
  - intros Hne. now rewrite (dict_truthy_nonempty n Hne).
  - intros ->. rewrite dict_truthy_empty. split; [reflexivity |].
    cbn. auto.
Qed.

(** The same, on a notification that has a subject and no id. *)
Lemma missing_id_absent_sample :
  let r := fetch_newest_notification (healthy (fun _ => [no_id_notification])) 2
             (handler (PInt 5)) in
  res r = Ret None
  /\ verdicts (trace r) = [Absent]
  /\ last_notification_id (final r) = PInt 5
  /\ warnings (trace r) = [NoIdField].
Proof.
  destruct (missing_id_absent (healthy (fun _ => [no_id_notification])) 0
              (handler (PInt 5)) _ 7 no_id_notification [] eq_refl eq_refl eq_refl eq_refl)
    as (Hr & Hv & Hc & _ & Hw & _).
  split; [exact Hr | split; [exact Hv | split; [exact Hc |]]].
  apply Hw. intros Heq.
  assert (Hl : no_id_notification !! "subject" = (∅ : dict) !! "subject")
    by now rewrite Heq.
  discriminate Hl.
Defined.

(** C7, the code at the failing input. The service answers with the list
    [[{}]], whose first notification is an object without an id.
    [fetch_latest_notification] logs it as fetched and returns it;
    [fetch_newest_notification] tests it by truth value before it reads the
    id (line 95), the empty object is falsy, and the call logs
    "No notifications fetched." where the claim has the warning of lines
    97-101. The rest of the claim holds there: [None] is returned, nothing
    is raised and the cursor stays 5. On the sibling input, a notification
    that has a subject and no id, the warning is logged. *)
Theorem empty_notification_misses_warning :
  let r := fetch_newest_notification (healthy (fun _ => [∅])) 2 (handler (PInt 5)) in
  let sibling :=
    fetch_newest_notification (healthy (fun _ => [no_id_notification])) 2
      (handler (PInt 5)) in
  (moodle_get_popup_notifications (healthy (fun _ => [∅])) 0 7 = inr [∅]
   /\ dict_get ∅ "id" = PNone
   /\ trace r = [Log INFO FetchingNotifications; GetPopupNotifications 7;
                 Log DEBUG (LatestFetched ∅); Log INFO NoNotificationsFetched]
   /\ warnings (trace r) = []
   /\ res r = Ret None
   /\ last_notification_id (final r) = PInt 5)
  /\ (dict_get no_id_notification "id" = PNone
      /\ warnings (trace sibling) = [NoIdField]
      /\ res sibling = Ret None
      /\ last_notification_id (final sibling) = PInt 5).
Proof. cbv zeta. vm_compute. repeat split. Qed.

(** C10. Whenever [fetch_newest_notification] returns, its run carries
    exactly one verdict, and the value returned is the fetched notification
    (the one logged as fetched, whose id is the id of the verdict) when the
    verdict is First or New, and [None] when it is Absent or Stale. So the
    value [None] does not tell "nothing fetched" from "stale notification
    fetched": at cursor 5 an empty answer and an answer showing id 3 both
    return [None]. *)
Theorem fetch_newest_return_value (remote : Remote) (fuel : nat)
    (h : MoodleNotificationHandler) (x : option dict)
    (Hret : res (fetch_newest_notification remote fuel h) = Ret x) :
  let r := fetch_newest_notification remote fuel h in
  (exists v, verdicts (trace r) = [v]
     /\ match v with
        | First id | New id =>
            exists n, x = Some n /\ dict_get n "id" = id
                      /\ In (Log DEBUG (LatestFetched n)) (trace r)
        | Absent | Stale _ => x = None
        end)
  /\ (let absent := fetch_newest_notification (healthy (fun _ => [])) 2 (handler (PInt 5)) in
      let stale :=
        fetch_newest_notification (healthy (fun _ => [notification 3])) 2 (handler (PInt 5)) in
      res absent = Ret None /\ verdicts (trace absent) = [Absent]
      /\ res stale = Ret None /\ verdicts (trace stale) = [Stale (PInt 3)]).
Proof.
  cbv zeta. split; [| now repeat split].
  pose proof (fetch_newest_outcome remote fuel h) as H. cbv zeta in H.
  rewrite Hret in H. destruct H as (v & Hv & Hok & Hn).
  exists v. split; [exact Hv |].
  destruct v as [|id|id|id]; simpl in Hok.
  - exact (proj1 Hok).
  - destruct Hok as (_ & _ & _ & n & -> & Hid). exists n. auto.
  - destruct Hok as (_ & _ & _ & n & -> & Hid). exists n. auto.
  - exact (proj1 (proj2 (proj2 Hok))).
Qed.

(** C10, on the four verdicts: ids 7 (cursor unset), 7 (cursor 5), 3
    (cursor 5) and an id-less notification. *)
Lemma fetch_newest_return_value_witness :
  (exists v,
     verdicts (trace (fetch_newest_notification (healthy (fun _ => [notification 7])) 2
                        (handler (PInt 5)))) = [v]
     /\ match v with
        | First id | New id =>
            exists n, Some (notification 7) = Some n /\ dict_get n "id" = id
                      /\ In (Log DEBUG (LatestFetched n))
                           (trace (fetch_newest_notification
                                     (healthy (fun _ => [notification 7])) 2
                                     (handler (PInt 5))))
        | Absent | Stale _ => Some (notification 7) = None
        end)
  /\ res (fetch_newest_notification (healthy (fun _ => [notification 7])) 2 (handler PNone))
     = Ret (Some (notification 7))
  /\ res (fetch_newest_notification (healthy (fun _ => [notification 3])) 2 (handler (PInt 5)))
     = Ret None
  /\ res (fetch_newest_notification (healthy (fun _ => [no_id_notification])) 2
            (handler (PInt 5)))
     = Ret None.
Proof.
  split; [| now repeat split].
  exact (proj1 (fetch_newest_return_value (healthy (fun _ => [notification 7])) 2
                  (handler (PInt 5)) (Some (notification 7)) eq_refl)).
Defined.

(** ** Claims about dispatch *)

Import Notification.

(** Splitting on whatever a run still inspects: a configuration flag, an
    answer of a collaborator, a field of a record. *)
Ltac run_split :=
  repeat (run_step;
          match goal with
          | |- context [match ?x with _ => _ end] =>
              lazymatch x with
              | context [match _ with _ => _ end] => fail
              | _ => destruct x eqn:?
              end
          end);
  run_step.

Ltac send_unfold :=
  unfold send, handle_exceptions, send_body, pushbullet_send, discord_send, subscript,
    user_id_from, api_core_user_get_users_by_field.

(** Membership of an event in an explicit trace. *)
Ltac in_trace H :=
  cbn [In] in H;
  repeat (destruct H as [H | H]; [try discriminate H |]); try contradiction.

(** When the first sink is enabled and its deliver call raises, the body of
    [send] logs the failure and re-raises at once. *)
Lemma send_body_pushbullet_fails (remote : Remote) (subject text summary : string)
    (useridfrom : option Z) (s : NotificationSender) (e : py_exn) :
  pushbullet_state s = 1 ->
  pushbullet_send_notification remote (pushbullet_key s) subject summary = Some e ->
  send_body remote subject text summary useridfrom s =
  Run [Log INFO SendingPushbullet; PushbulletSend (pushbullet_key s) subject summary;
       Log ERROR SendFailed] s (Raise e).
Proof.
  intros Hstate Hfail. send_unfold. run_step. rewrite Hstate. cbn [Z.eqb Pos.eqb].
  run_step. rewrite Hfail. reflexivity.
Qed.

(** C6. [send], as its callers see it, returns on every input. When an
    enabled sink's deliver call fails (the Pushbullet call while
    [pushbullet_state] is 1, or the Discord call that the run made), the
    failure is logged ("Failed to send notification") and [send] still
    returns, with [None]. *)
Theorem send_returns_on_sink_failure (remote : Remote) (subject text summary : string)
    (useridfrom : option Z) (s : NotificationSender) :
  let r := send remote subject text summary useridfrom s in
  returns r
  /\ (forall e,
        pushbullet_state s = 1 ->
        pushbullet_send_notification remote (pushbullet_key s) subject summary = Some e ->
        res r = Ret None /\ In (Log ERROR SendFailed) (trace r))
  /\ (forall fullname picture_url e,
        In (DiscordSend subject text summary fullname picture_url) (trace r) ->
        discord_call remote subject text summary fullname picture_url = Some e ->
        res r = Ret None /\ In (Log ERROR SendFailed) (trace r)).
Proof.
  cbv zeta. unfold returns. send_unfold. run_split.
  all: cbn [res trace].
  all: split; [eexists; reflexivity |].
  all: split.
  all: try (intros e Hstate Hfail;
            first [ split; [reflexivity | cbn [In]; tauto]
                  | exfalso; congruence
                  | exfalso; rewrite Hstate in *; discriminate ]).
  all: intros fullname picture_url e Hin Hfail;
       first [ split; [reflexivity | cbn [In]; tauto]
             | exfalso; in_trace Hin; injection Hin as <- <-; congruence
             | exfalso; in_trace Hin ].
Qed.

(** C6, with Pushbullet down and with Discord down. *)
Lemma send_returns_on_sink_failure_witness :
  (res (send pushbullet_down "subject" "text" "summary" None (sender 1 1)) = Ret None
   /\ In (Log ERROR SendFailed)
        (trace (send pushbullet_down "subject" "text" "summary" None (sender 1 1))))
  /\ (res (send discord_down "subject" "text" "summary" None (sender 1 1)) = Ret None
      /\ In (Log ERROR SendFailed)
           (trace (send discord_down "subject" "text" "summary" None (sender 1 1)))).
Proof.
  split.
  - apply (proj1 (proj2 (send_returns_on_sink_failure pushbullet_down "subject" "text"
                           "summary" None (sender 1 1)))
             (RemoteError "pushbullet: 503")); reflexivity.
  - apply (proj2 (proj2 (send_returns_on_sink_failure discord_down "subject" "text"
                           "summary" None (sender 1 1)))
             default_fullname default_profile_url (RemoteError "discord: 429")).
    + cbn. auto 10.
    + reflexivity.
Defined.

(** C1 as stated fails: both sinks are enabled, Discord works, Pushbullet
    is down; the Discord sink never receives its deliver call. *)
Lemma sink_isolation_counterexample :
  pushbullet_state (sender 1 1) = 1
  /\ webhook_state (sender 1 1) = 1
  /\ pushbullet_send_notification pushbullet_down (PStr "o.key") "subject" "summary"
     = Some (RemoteError "pushbullet: 503")
  /\ discord_call pushbullet_down "subject" "text" "summary" default_fullname
       default_profile_url = None
  /\ deliveries (trace (send pushbullet_down "subject" "text" "summary" None (sender 1 1)))
     = [PushbulletSend (PStr "o.key") "subject" "summary"]
  /\ discord_deliveries
       (trace (send pushbullet_down "subject" "text" "summary" None (sender 1 1))) = []
  /\ discord_deliveries
       (trace (send_body pushbullet_down "subject" "text" "summary" None (sender 1 1))) = [].
Proof. repeat split. Qed.

(** C1, amended. In every dispatch in which the first sink (Pushbullet) is
    enabled and its deliver call raises, the body of [send] logs "Failed to
    send notification" and re-raises the error at once: whether or not the
    second sink (Discord) is enabled, it receives no deliver call in that
    dispatch. *)
Theorem pushbullet_failure_skips_discord (remote : Remote) (subject text summary : string)
    (useridfrom : option Z) (s : NotificationSender) (e : py_exn)
    (Hstate : pushbullet_state s = 1)
    (Hfail : pushbullet_send_notification remote (pushbullet_key s) subject summary = Some e) :
  let body := send_body remote subject text summary useridfrom s in
  let r := send remote subject text summary useridfrom s in
  res body = Raise e
  /\ trace body = [Log INFO SendingPushbullet;
                   PushbulletSend (pushbullet_key s) subject summary;
                   Log ERROR SendFailed]
  /\ discord_deliveries (trace body) = []
  /\ discord_deliveries (trace r) = []
  /\ deliveries (trace r) = [PushbulletSend (pushbullet_key s) subject summary].
Proof.
  cbv zeta. unfold send, handle_exceptions. run_step.
  rewrite (send_body_pushbullet_fails remote subject text summary useridfrom s e Hstate Hfail).
  now repeat split.
Qed.

(** C1 amended, with Pushbullet down and both sinks enabled. *)
Lemma pushbullet_failure_skips_discord_witness :
  res (send_body pushbullet_down "subject" "text" "summary" None (sender 1 1))
  = Raise (RemoteError "pushbullet: 503")
  /\ discord_deliveries
       (trace (send pushbullet_down "subject" "text" "summary" None (sender 1 1))) = [].
Proof.
  destruct (pushbullet_failure_skips_discord pushbullet_down "subject" "text" "summary" None
              (sender 1 1) (RemoteError "pushbullet: 503") eq_refl eq_refl)
    as (Hr & _ & _ & Hd & _).
  split; [exact Hr | exact Hd].
Defined.

(** When the lookup of the sender finds nobody or raises, [user_id_from]
    returns [None], and [send] subscripts it. *)
Lemma send_body_lookup_fails (remote : Remote) (subject text summary : string)
    (uid : Z) (s : NotificationSender) :
  pushbullet_state s <> 1 -> webhook_state s = 1 ->
  (forall u l, moodle_get_users_by_field remote "id" (py_str_of_int uid) <> inr (u :: l)) ->
  let r := send_body remote subject text summary (Some uid) s in
  res r = Raise (TypeError "'NoneType' object is not subscriptable")
  /\ deliveries (trace r) = [].
Proof.
  intros Hpb Hwh Hnobody. cbv zeta.
  apply Z.eqb_neq in Hpb. apply Z.eqb_eq in Hwh.
  send_unfold. run_step. rewrite Hpb. run_step. rewrite Hwh. run_step.
  destruct (api (moodle_handler s)); run_step; [| now split].
  destruct (moodle_get_users_by_field remote "id" (py_str_of_int uid)) as [e|[|u l]] eqn:E;
    run_step; [now split | now split |].
  now destruct (Hnobody u l).
Qed.

(** C2, the code at the failing inputs: Discord is the only enabled sink and
    works, a sender id is supplied, and the lookup finds nobody (user 41 of
    [healthy]) or raises (every lookup of [flaky]). The body of [send]
    raises [TypeError], no sink receives a deliver call, and the default
    identity is not used. *)
Theorem lookup_failure_aborts_dispatch :
  let absent := send_body (healthy (fun _ => [])) "subject" "text" "summary" (Some 41)
                  (sender 0 1) in
  let failing := send_body (flaky 0 (fun _ => [])) "subject" "text" "summary" (Some 42)
                   (sender 0 1) in
  (res (user_id_from (healthy (fun _ => [])) 41 (handler PNone)) = Ret None
   /\ res absent = Raise (TypeError "'NoneType' object is not subscriptable")
   /\ deliveries (trace absent) = [])
  /\ (res (user_id_from (flaky 0 (fun _ => [])) 42 (handler PNone)) = Ret None
      /\ res failing = Raise (TypeError "'NoneType' object is not subscriptable")
      /\ deliveries (trace failing) = [])
  /\ deliveries
       (trace (send (healthy (fun _ => [])) "subject" "text" "summary" (Some 41) (sender 0 1)))
     = []
  /\ deliveries
       (trace (send (healthy (fun _ => [])) "subject" "text" "summary" None (sender 0 1)))
     = [DiscordSend "subject" "text" "summary" default_fullname default_profile_url].
Proof. repeat split. Qed.

(** ** Claims about construction *)

Ltac init_unfold :=
  unfold Moodle.new, Moodle.__init__, __login, _get_config_value, MoodleAPI_new,
    api_login, api_get_user_id, fresh.

Ltac handler_fields :=
  cbn [config last_notification_id logged_in url api username password moodle_user_id
       set_url set_api set_username set_password set_logged_in set_moodle_user_id
       set_last_notification_id negb base_url requests].

(** Splitting on the answers met while [__init__] runs. *)
Ltac init_split :=
  repeat (run_step; handler_fields;
          match goal with
          | |- context [match ?x with _ => _ end] =>
              lazymatch x with
              | context [match _ with _ => _ end] => fail
              | _ => destruct x eqn:?
              end
          end);
  run_step; handler_fields.

(** C9 as stated fails for the Pushbullet and Discord keys: without
    [pushbullet.PUSHBULLET_API_KEY], or without [discord.WEBHOOK_URL], the
    body of [NotificationSender.__init__] returns, having logged no error;
    the attribute is simply [None]. *)
Lemma unchecked_sink_key_counterexample :
  let no_key := delete ("pushbullet", "PUSHBULLET_API_KEY") full_config in
  let no_url := delete ("discord", "WEBHOOK_URL") full_config in
  let built := Notification.init_body (healthy (fun _ => [])) no_key "MoodleStalker" "logo" () in
  let built' := Notification.init_body (healthy (fun _ => [])) no_url "MoodleStalker" "logo" () in
  get_config no_key "pushbullet" "PUSHBULLET_API_KEY" = None
  /\ trace built = [MoodleLogin "student" "secret"; GetUserId]
  /\ match res built with
     | Ret obj => pushbullet_key obj = PNone /\ pushbullet_state obj = 1
     | _ => False
     end
  /\ get_config no_url "discord" "WEBHOOK_URL" = None
  /\ trace built' = [MoodleLogin "student" "secret"; GetUserId]
  /\ match res built' with
     | Ret obj => webhook_url obj = PNone /\ webhook_state obj = 1
     | _ => False
     end
  /\ match res (Notification.new (healthy (fun _ => [])) no_key "MoodleStalker" "logo" ()) with
     | Ret (Some obj) => pushbullet_key obj = PNone
     | _ => False
     end.
Proof. vm_compute. repeat split. Qed.

(** C9, amended. Construction checks the three Moodle keys: in every
    configuration in which [moodle.MOODLE_URL], [moodle.MOODLE_USERNAME] or
    [moodle.MOODLE_PASSWORD] is absent, [MoodleNotificationHandler(config)]
    raises; the error is logged ("Initialization failed") and re-raised, so
    no handler exists to poll with, no notification request has been made
    and nothing was slept or retried. *)
Theorem missing_moodle_key_is_fatal (remote : Remote) (cfg : Config) {S : Type} (s : S)
    (key : string)
    (Hkey : key = "MOODLE_URL" \/ key = "MOODLE_USERNAME" \/ key = "MOODLE_PASSWORD")
    (Hmissing : get_config cfg "moodle" key = None) :
  let r := Moodle.new remote cfg s in
  (exists e, res r = Raise e /\ In (Log ERROR (InitializationFailed e)) (trace r))
  /\ sleeps (trace r) = []
  /\ polls (trace r) = [].
Proof.
  cbv zeta. destruct Hkey as [-> | [-> | ->]]; init_unfold; init_split.
  all: try congruence.
  all: cbn [res trace].
  all: (split; [eexists; split; [reflexivity | cbn [In]; auto 10] | now split]).
Qed.

(** C9 amended, on a configuration without the password. *)
Lemma missing_moodle_key_is_fatal_witness :
  let r := Moodle.new (S := unit) (healthy (fun _ => []))
             (delete ("moodle", "MOODLE_PASSWORD") full_config) () in
  (exists e, res r = Raise e /\ In (Log ERROR (InitializationFailed e)) (trace r))
  /\ sleeps (trace r) = []
  /\ polls (trace r) = [].
Proof.
  exact (missing_moodle_key_is_fatal (healthy (fun _ => []))
           (delete ("moodle", "MOODLE_PASSWORD") full_config) ()
           "MOODLE_PASSWORD" (or_intror (or_intror eq_refl)) eq_refl).
Defined.

(** ** Sanity checks of the model *)

Example py_int_samples :
  py_int (Some "1") = inr 1 /\ py_int (Some " 0 ") = inr 0 /\
  py_int (Some "-12") = inr (-12) /\ py_int (Some "1_000") = inr 1000 /\
  py_int (Some "") = inl (ValueError "invalid literal for int() with base 10") /\
  py_int (Some "1__0") = inl (ValueError "invalid literal for int() with base 10") /\
  py_int (Some "true") = inl (ValueError "invalid literal for int() with base 10") /\
  py_int None
  = inl (TypeError
           "int() argument must be a string, a bytes-like object or a real number, not 'NoneType'").
Proof. vm_compute. repeat split. Qed.

(** [int] at its edges: the separator U+001C is no white space for it, the
    no-break space U+00A0 is; a literal of 4300 digits is read and one of
    4301 digits is refused, before the characters after it are looked at. *)
Example py_int_edges :
  let digits (k : nat) := string_of_list_ascii (repeat "1"%char k) in
  py_int (Some (String (ascii_of_nat 28) "1"))
  = inl (ValueError "invalid literal for int() with base 10")
  /\ py_int (Some (String (ascii_of_nat 160) "1")) = inr 1
  /\ py_int (Some ("+ 1")) = inl (ValueError "invalid literal for int() with base 10")
  /\ (exists n, py_int (Some (digits 4300%nat)) = inr n)
  /\ py_int (Some (digits 4301%nat))
     = inl (ValueError "Exceeds the limit (4300 digits) for integer string conversion")
  /\ py_int (Some (digits 4301%nat ++ "x")%string)
     = inl (ValueError "Exceeds the limit (4300 digits) for integer string conversion").
Proof.
  cbv zeta. split; [vm_compute; reflexivity |]. split; [vm_compute; reflexivity |].
  split; [vm_compute; reflexivity |].
  split; [eexists; vm_compute; reflexivity |].
  split; vm_compute; reflexivity.
Qed.

(** A healthy start-up followed by three polls of a feed that shows the ids
    5, 3 and 7: two notifications are handed to the caller. *)
Example polling_session :
  let remote :=
    healthy (fun k => match k with
                      | O => [notification 5]
                      | S O => [notification 3]
                      | _ => [notification 7]
                      end) in
  match res (Moodle.new (S := unit) remote moodle_config ()) with
  | Ret h =>
      map (fun r => verdicts (trace r)) (poll_many remote [2; 2; 2]%nat h)
      = [[First (PInt 5)]; [Stale (PInt 3)]; [New (PInt 7)]]
      /\ map (fun r => res r) (poll_many remote [2; 2; 2]%nat h)
         = [Ret (Some (notification 5)); Ret None; Ret (Some (notification 7))]
  | _ => False
  end.
Proof. vm_compute. repeat split. Qed.

(** A sender id that resolves: both sinks are called, Discord with the
    identity found. *)
Example send_with_known_sender :
  deliveries (trace (send (healthy (fun _ => [])) "subject" "text" "summary" (Some 42)
                       (sender 1 1)))
  = [PushbulletSend (PStr "o.key") "subject" "summary";
     DiscordSend "subject" "text" "summary" (PStr "Ada Lovelace")
       (PStr "https://moodle.example/ada.png")].
Proof. vm_compute. reflexivity. Qed.

(** * Further properties of the handler *)

Section Lookup.

Variable remote : Remote.


End Lookup.

(** Splitting on the answers met while an object is built, down to the
    outcome of the run. *)
Ltac outcome_split :=
  repeat (run_step; handler_fields; cbn [res trace final];
          match goal with
          | |- context [match ?x with _ => _ end] =>
              lazymatch x with
              | context [match _ with _ => _ end] => fail
              | _ => destruct x eqn:?
              end
          end);
  run_step; handler_fields; cbn [res trace final].

Section Construction.

Variable remote : Remote.

(** X2. Construction of a handler succeeds exactly when the three Moodle
    keys hold non-empty values, the API object can be built, the login call
    returns (whatever it answers) and the user id can be fetched. The
    handler then holds those values, an unset cursor and the answer of the
    login in [logged_in]: a login that answers [False] does not stop it. *)
Theorem handler_construction (cfg : Config) {S : Type} (s : S) :
  let r := Moodle.new remote cfg s in
  match res r with
  | Ret h =>
      exists u usr pw ok uid,
        get_config cfg "moodle" "MOODLE_URL" = Some u /\ u <> ""
        /\ get_config cfg "moodle" "MOODLE_USERNAME" = Some usr /\ usr <> ""
        /\ get_config cfg "moodle" "MOODLE_PASSWORD" = Some pw /\ pw <> ""
        /\ moodle_api_new remote u = None
        /\ moodle_login remote u usr pw = inr ok
        /\ moodle_get_user_id remote u = inr uid
        /\ h = {| config := cfg; last_notification_id := PNone; logged_in := ok;
                  url := Some u; api := Some {| base_url := u; requests := 0 |};
                  username := Some usr; password := Some pw;
                  moodle_user_id := Some uid |}
        /\ trace r = [MoodleLogin usr pw; GetUserId]
  | Raise e => In (Log ERROR (InitializationFailed e)) (trace r)
  | Diverge => False
  end
  /\ (forall u usr pw ok uid,
        get_config cfg "moodle" "MOODLE_URL" = Some u -> u <> "" ->
        get_config cfg "moodle" "MOODLE_USERNAME" = Some usr -> usr <> "" ->
        get_config cfg "moodle" "MOODLE_PASSWORD" = Some pw -> pw <> "" ->
        moodle_api_new remote u = None ->
        moodle_login remote u usr pw = inr ok ->
        moodle_get_user_id remote u = inr uid ->
        returns r /\ final r = s).
Proof.
  cbv zeta. split.
  - init_unfold. outcome_split.
    all: try (cbn [In]; auto 10; fail).
    all: repeat match goal with
                | H : str_truthy ?x = true |- _ =>
                    assert (x <> "") by (intros ->; discriminate H); clear H
                end.
    all: do 5 eexists; repeat (split; [eassumption || reflexivity |]); reflexivity.
  - intros u usr pw ok uid Hu Hune Husr Husrne Hpw Hpwne Hnew Hlogin Huid.
    assert (Ht : forall x, x <> "" -> str_truthy x = true)
      by (intros [|c x] Hx; [now destruct Hx | reflexivity]).
    init_unfold. run_step; handler_fields.
    rewrite Hu, (Ht u Hune). run_step; handler_fields. rewrite Hnew.
    run_step; handler_fields.
    rewrite Husr, (Ht usr Husrne). run_step; handler_fields.
    rewrite Hpw, (Ht pw Hpwne). run_step; handler_fields. rewrite Hlogin.
    run_step; handler_fields.
    destruct ok; run_step; handler_fields; rewrite Huid; run_step;
      (split; [eexists; reflexivity | reflexivity]).
Qed.

End Construction.

(** X2, on a service whose login answers [False]: the handler is built, with
    [logged_in] false. *)
Lemma handler_construction_witness :
  returns (Moodle.new (S := unit) login_refused moodle_config ())
  /\ match res (Moodle.new (S := unit) login_refused moodle_config ()) with
     | Ret h => logged_in h = false /\ moodle_user_id h = Some 7
     | _ => False
     end.
Proof.
  destruct (handler_construction login_refused moodle_config ()) as [_ H].
  split.
  - apply (H "https://moodle.example" "student" "secret" false 7);
      first [discriminate | vm_compute; reflexivity].
  - vm_compute. now split.
Defined.


Section Fetcher.

Variable remote : Remote.

Lemma fetch_latest_loop_answer (fuel : nat) :
  forall (d : Z) (h : MoodleNotificationHandler),
    let r := fetch_latest_loop remote fuel d h in
    match res r with
    | Ret x =>
        exists k uid l,
          moodle_get_popup_notifications remote k uid = inr l /\ x = head l
          /\ moodle_user_id h = Some uid
    | Raise _ => False
    | Diverge => length (sleeps (trace r)) = fuel
    end.
Proof.
  induction fuel as [|fuel IH]; intros d h; [reflexivity |].
  cbv zeta. rewrite fetch_latest_loop_eq.
  destruct (api h) as [a|]; [destruct (moodle_user_id h) as [uid|] eqn:Eu |].
  - destruct (moodle_get_popup_notifications remote (requests a) uid) as [e|[|n l]] eqn:E.
    + specialize (IH (d + 2) (requested a h)). cbv zeta in IH. after_simpl.
      destruct (res (fetch_latest_loop remote fuel (d + 2) (requested a h))).
      * destruct IH as (k & uid' & l & Hk & Hx & Hu). exists k, uid', l.
        repeat split; auto. now rewrite <- Hu.
      * exact IH.
      * unfold sleeps in *. cbn. now rewrite IH.
    + cbn [res]. exists (requests a), uid, []. now repeat split.
    + cbn [res]. exists (requests a), uid, (n :: l). now repeat split.
  - specialize (IH (d + 2) h). cbv zeta in IH. after_simpl.
    destruct (res (fetch_latest_loop remote fuel (d + 2) h)).
    + destruct IH as (k & uid' & l & _ & _ & Hu). congruence.
    + exact IH.
    + unfold sleeps in *. cbn. now rewrite IH.
  - specialize (IH (d + 2) h). cbv zeta in IH. after_simpl.
    destruct (res (fetch_latest_loop remote fuel (d + 2) h)).
    + destruct IH as (k & uid' & l & Hk & Hx & Hu). exists k, uid', l. now repeat split.
    + exact IH.
    + unfold sleeps in *. cbn. now rewrite IH.
Qed.

Lemma fetch_latest_loop_no_lookup (fuel : nat) :
  forall (d : Z) (h : MoodleNotificationHandler),
    lookups (trace (fetch_latest_loop remote fuel d h)) = [].
Proof.
  induction fuel as [|fuel IH]; intros d h; [reflexivity |].
  rewrite fetch_latest_loop_eq.
  destruct (api h) as [a|]; [destruct (moodle_user_id h) as [uid|] |].
  - destruct (moodle_get_popup_notifications remote (requests a) uid) as [e|[|n l]];
      [| reflexivity | reflexivity].
    after_simpl. unfold lookups in *. cbn. apply IH.
  - after_simpl. unfold lookups in *. cbn. apply IH.
  - after_simpl. unfold lookups in *. cbn. apply IH.
Qed.

Lemma fetch_latest_loop_logged (fuel : nat) :
  forall (d : Z) (h : MoodleNotificationHandler),
    let r := fetch_latest_loop remote fuel d h in
    retry_notices (trace r) = sleeps (trace r)
    /\ length (fetch_failures (trace r)) = length (sleeps (trace r))
    /\ (forall a uid, api h = Some a -> moodle_user_id h = Some uid ->
          (forall i e, fetch_failures (trace r) !! i = Some e ->
                       moodle_get_popup_notifications remote (requests a + i) uid = inl e)
          /\ (forall x, res r = Ret x ->
                exists l,
                  moodle_get_popup_notifications remote
                    (requests a + length (sleeps (trace r))) uid = inr l
                  /\ x = head l)).
Proof.
  induction fuel as [|fuel IH]; intros d h.
  - cbv zeta. cbn. split; [reflexivity |]. split; [reflexivity |].
    intros a uid _ _. split; [intros i e Hi; discriminate Hi | intros x Hx; discriminate Hx].
  - cbv zeta. rewrite fetch_latest_loop_eq.
    destruct (api h) as [a|] eqn:Ea; [destruct (moodle_user_id h) as [uid|] eqn:Eu |].
    + destruct (moodle_get_popup_notifications remote (requests a) uid) as [e|[|n l]] eqn:E.
      * specialize (IH (d + 2) (requested a h)). cbv zeta in IH.
        destruct IH as (Hn & Hl & Hreq). after_simpl.
        unfold retry_notices, fetch_failures, sleeps in *. cbn.
        split; [now rewrite Hn |]. split; [now rewrite Hl |].
        intros a' uid' [= <-] [= <-].
        destruct (Hreq {| base_url := base_url a; requests := S (requests a) |} uid
                    eq_refl Eu) as (Hlog & Hret).
        cbn [requests] in Hlog, Hret. split.
        -- intros [|i] e' Hi.
           ++ injection Hi as <-. now rewrite Nat.add_0_r.
           ++ rewrite Nat.add_succ_r. apply (Hlog i e' Hi).
        -- intros x Hx. destruct (Hret x Hx) as (l & Hl' & Hx').
           exists l. split; [| exact Hx'].
           now rewrite Nat.add_succ_r.
      * cbn. split; [reflexivity |]. split; [reflexivity |].
        intros a' uid' [= <-] [= <-]. split; [intros i e Hi; discriminate Hi |].
        intros x [= <-]. exists []. rewrite Nat.add_0_r. now split.
      * cbn. split; [reflexivity |]. split; [reflexivity |].
        intros a' uid' [= <-] [= <-]. split; [intros i e Hi; discriminate Hi |].
        intros x [= <-]. exists (n :: l). rewrite Nat.add_0_r. now split.
    + specialize (IH (d + 2) h). cbv zeta in IH. destruct IH as (Hn & Hl & _).
      after_simpl. unfold retry_notices, fetch_failures, sleeps in *. cbn.
      split; [now rewrite Hn |]. split; [now rewrite Hl |].
      intros a' uid' _ Hu'. discriminate Hu'.
    + specialize (IH (d + 2) h). cbv zeta in IH. destruct IH as (Hn & Hl & _).
      after_simpl. unfold retry_notices, fetch_failures, sleeps in *. cbn.
      split; [now rewrite Hn |]. split; [now rewrite Hl |].
      intros a' uid' Ha'. discriminate Ha'.
Qed.

(** X3. Whatever the service does, [fetch_latest_notification] never
    raises: a failure of the request is logged and retried, never passed
    on. Every pass that fails writes one failure record and one
    announcement of the delay, then sleeps for the delay announced; for a
    handler that has its API object and user id, the i-th failure record
    carries the exception that the i-th request raised, and a value
    returned is the first notification of the first answer that did not
    raise ([None] if that answer is empty). No sink is called and no user
    is looked up while it runs. *)
Theorem fetch_latest_never_raises (fuel : nat) (h : MoodleNotificationHandler) :
  let r := fetch_latest_notification remote fuel h in
  match res r with
  | Ret x =>
      exists k uid l,
        moodle_get_popup_notifications remote k uid = inr l /\ x = head l
        /\ moodle_user_id h = Some uid
  | Raise _ => False
  | Diverge => length (sleeps (trace r)) = fuel
  end
  /\ deliveries (trace r) = []
  /\ lookups (trace r) = []
  /\ retry_notices (trace r) = sleeps (trace r)
  /\ length (fetch_failures (trace r)) = length (sleeps (trace r))
  /\ (forall a uid, api h = Some a -> moodle_user_id h = Some uid ->
        (forall i e, fetch_failures (trace r) !! i = Some e ->
                     moodle_get_popup_notifications remote (requests a + i) uid = inl e)
        /\ (forall x, res r = Ret x ->
              exists l,
                moodle_get_popup_notifications remote
                  (requests a + length (sleeps (trace r))) uid = inr l
                /\ x = head l)).
Proof.
  cbv zeta. unfold fetch_latest_notification.
  split; [apply fetch_latest_loop_answer |].
  destruct (fetch_latest_loop_inv remote fuel 60 h) as (_ & Hq & _).
  split; [now apply quiet_deliveries |].
  split; [apply fetch_latest_loop_no_lookup |].
  exact (fetch_latest_loop_logged fuel 60 h).
Qed.

Lemma fetch_latest_loop_unanswered (fuel : nat) :
  forall (d : Z) (h : MoodleNotificationHandler) (a : MoodleAPI) (uid : Z),
    api h = Some a -> moodle_user_id h = Some uid ->
    (forall i, exists e,
        moodle_get_popup_notifications remote (requests a + i) uid = inl e) ->
    let r := fetch_latest_loop remote fuel d h in
    res r = Diverge
    /\ sleeps (trace r) = map (fun i => d + 2 * Z.of_nat i) (seq 0 fuel)
    /\ polls (trace r) = repeat uid fuel.
Proof.
  induction fuel as [|fuel IH]; intros d h a uid Ha Hu Hfail; [now repeat split |].
  cbv zeta. rewrite fetch_latest_loop_eq, Ha, Hu.
  destruct (Hfail 0%nat) as (e & He). rewrite Nat.add_0_r in He. rewrite He.
  specialize (IH (d + 2) (requested a h)
                {| base_url := base_url a; requests := S (requests a) |} uid eq_refl Hu).
  cbv zeta in IH. destruct IH as (Hr & Hs & Hp).
  - intros i. destruct (Hfail (S i)) as (e' & He'). exists e'.
    cbn [requests]. now rewrite <- He', Nat.add_succ_r.
  - after_simpl. split; [exact Hr |]. split.
    + unfold sleeps in *. cbn. rewrite Hs. apply backoff_delays_step.
    + unfold polls in *. cbn. now rewrite Hp.
Qed.

(** X4. There is no circuit breaker: against a service that refuses every
    request, [fetch_latest_notification] has not returned after any number
    [fuel] of passes; by then it has issued [fuel] requests and slept 60, 62,
    ..., 60 + 2 (fuel - 1) seconds. *)
Theorem fetch_latest_never_gives_up (fuel : nat) (h : MoodleNotificationHandler)
    (a : MoodleAPI) (uid : Z)
    (Ha : api h = Some a) (Hu : moodle_user_id h = Some uid)
    (Hfail : forall i, exists e,
        moodle_get_popup_notifications remote (requests a + i) uid = inl e) :
  let r := fetch_latest_notification remote fuel h in
  res r = Diverge
  /\ sleeps (trace r) = map (fun i => 60 + 2 * Z.of_nat i) (seq 0 fuel)
  /\ polls (trace r) = repeat uid fuel.
Proof. exact (fetch_latest_loop_unanswered fuel 60 h a uid Ha Hu Hfail). Qed.

End Fetcher.

(** X3, on a service that refuses the first two requests: both refusals are
    logged, both delays are announced and slept, the third answer is
    returned. *)
Lemma fetch_latest_never_raises_witness :
  let r := fetch_latest_notification (flaky 2 (fun _ => [notification 7])) 3 (handler PNone) in
  res r = Ret (Some (notification 7))
  /\ fetch_failures (trace r)
     = [RemoteError "connection refused"; RemoteError "connection refused"]
  /\ retry_notices (trace r) = [60; 62]
  /\ sleeps (trace r) = [60; 62]
  /\ moodle_get_popup_notifications (flaky 2 (fun _ => [notification 7])) 1 7
     = inl (RemoteError "connection refused").
Proof.
  destruct (fetch_latest_never_raises (flaky 2 (fun _ => [notification 7])) 3 (handler PNone))
    as (_ & _ & _ & Hn & _ & Hreq).
  destruct (Hreq _ 7 eq_refl eq_refl) as (Hlog & _).
  split; [vm_compute; reflexivity |].
  split; [vm_compute; reflexivity |].
  split; [rewrite Hn; vm_compute; reflexivity |].
  split; [vm_compute; reflexivity |].
  apply (Hlog 1%nat). vm_compute. reflexivity.
Defined.

(** X4, after 40 passes against a service that is down. *)
Lemma fetch_latest_never_gives_up_witness :
  let r := fetch_latest_notification unreachable 40 (handler PNone) in
  res r = Diverge
  /\ sleeps (trace r) = map (fun i => 60 + 2 * Z.of_nat i) (seq 0 40)
  /\ polls (trace r) = repeat 7 40.
Proof.
  apply (fetch_latest_never_gives_up unreachable 40 (handler PNone) _ 7 eq_refl eq_refl).
  intros i. eexists. reflexivity.
Defined.

(** * Further properties of the cursor *)

Lemma cursor_le_lt_trans (a b c : pyval) : cursor_le a b -> cursor_lt b c -> cursor_lt a c.
Proof.
  intros [-> | Hab] Hbc; [exact Hbc | eapply cursor_lt_trans; eassumption].
Qed.

Lemma cursor_lt_int (a b : Z) : cursor_lt (PInt a) (PInt b) -> a < b.
Proof.
  intros [[H _] | H]; [discriminate H |]. simpl in H. injection H as H.
  now apply Z.ltb_lt.
Qed.

Section Delivered.

Variable remote : Remote.

(** A notification handed to the caller has an id above the cursor of
    before the call, and the cursor is that id afterwards. *)
Lemma fetch_newest_delivered (fuel : nat) (h : MoodleNotificationHandler) (n : dict) :
  let r := fetch_newest_notification remote fuel h in
  res r = Ret (Some n) ->
  cursor_lt (last_notification_id h) (dict_get n "id")
  /\ last_notification_id (final r) = dict_get n "id".
Proof.
  cbv zeta. intros Hret.
  pose proof (fetch_newest_outcome remote fuel h) as H. cbv zeta in H.
  rewrite Hret in H. destruct H as (v & _ & Hok & _).
  destruct v as [|id|id|id]; simpl in Hok.
  - destruct Hok as (Hx & _). discriminate Hx.
  - destruct Hok as (Hc0 & Hid & Hc1 & m & [= <-] & Hm). rewrite Hm, Hc1.
    split; [| reflexivity]. left. now split.
  - destruct Hok as (_ & Hgt & Hc1 & m & [= <-] & Hm). rewrite Hm, Hc1.
    split; [| reflexivity]. now right.
  - destruct Hok as (_ & _ & Hx & _). discriminate Hx.
Qed.

Lemma delivered_ids_sorted (fuels : list nat) :
  forall h,
    StronglySorted cursor_lt (delivered_ids (poll_many remote fuels h))
    /\ Forall (cursor_lt (last_notification_id h)) (delivered_ids (poll_many remote fuels h)).
Proof.
  induction fuels as [|fuel fuels IH]; intros h; [split; constructor |].
  cbn [poll_many].
  pose proof (fetch_newest_cursor_le remote fuel h) as Hle.
  pose proof (fetch_newest_delivered fuel h) as Hdel. cbv zeta in Hdel.
  set (r := fetch_newest_notification remote fuel h) in *.
  set (rest := match res r with
               | Ret _ => poll_many remote fuels (final r)
               | _ => []
               end).
  assert (Hrest : StronglySorted cursor_lt (delivered_ids rest)
                  /\ Forall (cursor_lt (last_notification_id (final r))) (delivered_ids rest)).
  { subst rest. destruct (res r); [apply IH | |]; split; constructor. }
  destruct Hrest as (Hs & Hall).
  change (delivered_ids (r :: rest))
    with (match delivered_id r with
          | Some i => i :: delivered_ids rest
          | None => delivered_ids rest
          end).
  unfold delivered_id.
  destruct (res r) as [[n|]| |].
  - destruct (Hdel n eq_refl) as (Hlt & Hc). rewrite Hc in Hall. split.
    + constructor; assumption.
    + constructor; [exact Hlt |].
      eapply List.Forall_impl; [| exact Hall].
      intros c Hcc. eapply cursor_lt_trans; eassumption.
  - split; [exact Hs |].
    eapply List.Forall_impl; [| exact Hall].
    intros c Hcc. eapply cursor_le_lt_trans; eassumption.
  - split; [exact Hs |].
    eapply List.Forall_impl; [| exact Hall].
    intros c Hcc. eapply cursor_le_lt_trans; eassumption.
  - split; [exact Hs |].
    eapply List.Forall_impl; [| exact Hall].
    intros c Hcc. eapply cursor_le_lt_trans; eassumption.
Qed.

(** X5. No notification is handed out twice: over every sequence of calls
    of [fetch_newest_notification] on one handler, the ids of the
    notifications returned to the caller are strictly increasing (for
    integer ids: [<]) and all above the cursor the sequence started from. *)
Theorem delivered_ids_increase (fuels : list nat) (h : MoodleNotificationHandler) :
  StronglySorted cursor_lt (delivered_ids (poll_many remote fuels h))
  /\ Forall (cursor_lt (last_notification_id h)) (delivered_ids (poll_many remote fuels h))
  /\ (forall a b, cursor_lt (PInt a) (PInt b) -> a < b).
Proof.
  destruct (delivered_ids_sorted fuels h) as (Hs & Hall).
  split; [exact Hs | split; [exact Hall | exact cursor_lt_int]].
Qed.

End Delivered.

(** X5, on a feed that shows the ids 5, 5, 3, 7: only 5 and 7 are handed
    out. *)
Lemma delivered_ids_increase_witness :
  let remote :=
    healthy (fun k => match k with
                      | O => [notification 5]
                      | S O => [notification 5]
                      | S (S O) => [notification 3]
                      | _ => [notification 7]
                      end) in
  delivered_ids (poll_many remote [2; 2; 2; 2]%nat (handler PNone)) = [PInt 5; PInt 7]
  /\ StronglySorted cursor_lt [PInt 5; PInt 7]
  /\ 5 < 7.
Proof.
  intros remote.
  destruct (delivered_ids_increase remote [2; 2; 2; 2]%nat (handler PNone)) as (Hs & _ & Hint).
  split; [vm_compute; reflexivity |].
  split; [exact Hs |].
  apply Hint. right. reflexivity.
Defined.

Section OuterRetry.

Variable popup : nat -> Z -> py_exn + list pyobj.

Lemma untyped_fetch_latest_loop_eq (fuel : nat) (d : Z) (h : MoodleNotificationHandler) :
  Untyped.fetch_latest_loop popup (S fuel) d h =
  match api h, moodle_user_id h with
  | None, _ =>
      after [Log INFO FetchingNotifications;
             Log ERROR (FetchFailed (AttributeError "api"));
             Log INFO (RetryingIn d); Sleep d]
            (Untyped.fetch_latest_loop popup fuel (d + 2) h)
  | Some a, None =>
      after [Log INFO FetchingNotifications;
             Log ERROR (FetchFailed (AttributeError "moodle_user_id"));
             Log INFO (RetryingIn d); Sleep d]
            (Untyped.fetch_latest_loop popup fuel (d + 2) h)
  | Some a, Some uid =>
      match popup (requests a) uid with
      | inl e =>
          after [Log INFO FetchingNotifications; GetPopupNotifications uid;
                 Log ERROR (FetchFailed e); Log INFO (RetryingIn d); Sleep d]
                (Untyped.fetch_latest_loop popup fuel (d + 2) (requested a h))
      | inr [] =>
          Run [Log INFO FetchingNotifications; GetPopupNotifications uid;
               Log INFO NoNotificationsFound]
              (requested a h) (Ret None)
      | inr (latest :: _) =>
          Run [Log INFO FetchingNotifications; GetPopupNotifications uid;
               Log DEBUG (Untyped.latest_fetched latest)]
              (requested a h) (Ret (Some latest))
      end
  end.
Proof.
  unfold after, requested.
  cbn [Untyped.fetch_latest_loop]. unfold Untyped.api_get_popup_notifications. run_step.
  destruct (api h) as [a|]; [| run_cases; reflexivity]. run_step.
  destruct (moodle_user_id h) as [uid|]; [| run_cases; reflexivity]. run_step.
  destruct (popup (requests a) uid) as [e|[|n l]]; run_cases; reflexivity.
Qed.

Lemma untyped_compare_with_last_eq (fetched : option pyobj) (h : MoodleNotificationHandler) :
  Untyped.compare_with_last fetched h =
  match fetched with
  | None => Run [Log INFO NoNotificationsFetched] h (Ret None)
  | Some x =>
      if Untyped.truthy x then
        match x with
        | Other _ _ => Run [] h (Raise (AttributeError "get"))
        | Object n =>
            match dict_get n "id", last_notification_id h with
            | PNone, _ => Run [Log WARNING NoIdField] h (Ret None)
            | id, PNone =>
                Run [Log INFO (FirstNotification id)] (set_last_notification_id id h)
                    (Ret (Some x))
            | id, last =>
                match py_gt id last with
                | inl e => Run [] h (Raise e)
                | inr true =>
                    Run [Log INFO (NewNotification id)] (set_last_notification_id id h)
                        (Ret (Some x))
                | inr false => Run [Log INFO (NoNewNotifications id last)] h (Ret None)
                end
            end
        end
      else Run [Log INFO NoNotificationsFetched] h (Ret None)
  end.
Proof.
  destruct fetched as [x|]; [| reflexivity].
  unfold Untyped.compare_with_last, py_gt.
  destruct (Untyped.truthy x); [| reflexivity].
  destruct x as [n|text truth]; [| reflexivity].
  unfold Untyped.get. run_step.
  destruct (dict_get n "id") as [|i|s]; [reflexivity | |]; run_step;
    destruct (last_notification_id h) as [|j|t]; run_step; try reflexivity.
  - destruct (j <? i)%Z; reflexivity.
  - destruct (String.ltb t s); reflexivity.
Qed.

Lemma untyped_fetch_newest_loop_eq (fuel : nat) (d : Z) (h : MoodleNotificationHandler) :
  Untyped.fetch_newest_loop popup (S fuel) d h =
  let r1 := Untyped.fetch_latest_notification popup fuel h in
  match res r1 with
  | Ret fetched =>
      let r2 := Untyped.compare_with_last fetched (final r1) in
      match res r2 with
      | Raise e =>
          let r3 := Untyped.fetch_newest_loop popup fuel (d + 2) (final r2) in
          Run ((trace r1 ++ trace r2)
                 ++ Log ERROR (NewestFailed e) :: Log INFO (RetryingIn d) :: Sleep d
                 :: trace r3)
              (final r3) (res r3)
      | _ => Run (trace r1 ++ trace r2) (final r2) (res r2)
      end
  | Raise e =>
      let r3 := Untyped.fetch_newest_loop popup fuel (d + 2) (final r1) in
      Run (trace r1 ++ Log ERROR (NewestFailed e) :: Log INFO (RetryingIn d) :: Sleep d
             :: trace r3)
          (final r3) (res r3)
  | Diverge => Run (trace r1) (final r1) Diverge
  end.
Proof.
  cbn [Untyped.fetch_newest_loop]. run_step.
  destruct (Untyped.fetch_latest_notification popup fuel h) as [t1 h1 [fetched|e|]];
    cbn [res trace final].
  - destruct (Untyped.compare_with_last fetched h1) as [t2 h2 [x|e|]]; cbn [res trace final];
      run_cases; reflexivity.
  - run_cases; reflexivity.
  - reflexivity.
Qed.


Lemma untyped_fetch_latest_loop_inv (fuel : nat) :
  forall (d : Z) (h : MoodleNotificationHandler),
    let r := Untyped.fetch_latest_loop popup fuel d h in
    last_notification_id (final r) = last_notification_id h
    /\ newest_failures (trace r) = []
    /\ (forall e, res r <> Raise e)
    /\ (forall x, res r = Ret (Some x) -> exists k uid l, popup k uid = inr (x :: l)).
Proof.
  induction fuel as [|fuel IH]; intros d h.
  - simpl. repeat split; discriminate.
  - cbv zeta. rewrite untyped_fetch_latest_loop_eq.
    destruct (api h) as [a|]; [destruct (moodle_user_id h) as [uid|] |].
    + destruct (popup (requests a) uid) as [e|[|n l]] eqn:E.
      * destruct (IH (d + 2) (requested a h)) as (Hc & Hq & Hr & Hn).
        after_simpl. unfold newest_failures in *. cbn. now repeat split.
      * simpl. repeat split; discriminate.
      * simpl. repeat split; [discriminate |].
        intros x [= <-]. now exists (requests a), uid, l.
    + destruct (IH (d + 2) h) as (Hc & Hq & Hr & Hn).
      after_simpl. unfold newest_failures in *. cbn. now repeat split.
    + destruct (IH (d + 2) h) as (Hc & Hq & Hr & Hn).
      after_simpl. unfold newest_failures in *. cbn. now repeat split.
Qed.

(** The two ways in which the classification raises. *)
Lemma untyped_compare_with_last_failure (fetched : option pyobj)
    (h : MoodleNotificationHandler) :
  let r := Untyped.compare_with_last fetched h in
  newest_failures (trace r) = []
  /\ (forall e, res r = Raise e ->
        (e = AttributeError "get" /\ exists text, fetched = Some (Other text true))
        \/ (is_type_error e /\ last_notification_id h <> PNone
            /\ exists n, fetched = Some (Object n) /\ dict_get n "id" <> PNone
                         /\ py_gt (dict_get n "id") (last_notification_id h) = inl e)).
Proof.
  cbv zeta. rewrite untyped_compare_with_last_eq.
  destruct fetched as [x|]; [| split; [reflexivity | intros e He; discriminate He]].
  destruct (Untyped.truthy x) eqn:Et;
    [| split; [reflexivity | intros e He; discriminate He]].
  destruct x as [n|text truth].
  2: { split; [reflexivity |]. intros e [= <-]. left. split; [reflexivity |].
       exists text. simpl in Et. now rewrite Et. }
  assert (Hbad : forall e (a b : pyval),
             dict_get n "id" = a -> a <> PNone -> last_notification_id h = b -> b <> PNone ->
             py_gt a b = inl e -> (exists msg, e = TypeError msg) ->
             newest_failures (trace (Run (A := option pyobj) [] h (Raise e))) = []
             /\ (forall e', res (Run (A := option pyobj) [] h (Raise e)) = Raise e' ->
                   (e' = AttributeError "get"
                    /\ exists text, Some (Object n) = Some (Other text true))
                   \/ (is_type_error e' /\ b <> PNone
                       /\ exists m, Some (Object n) = Some (Object m)
                                    /\ dict_get m "id" <> PNone
                                    /\ py_gt (dict_get m "id") b = inl e'))).
  { intros e a b Ha Hane Hb Hne Hgt Hty. split; [reflexivity |].
    intros e' [= <-]. right. split; [exact Hty |]. split; [exact Hne |].
    exists n. rewrite Ha. now repeat split. }
  destruct (dict_get n "id") as [|i|s] eqn:Eid.
  - split; [reflexivity | intros e He; discriminate He].
  - destruct (last_notification_id h) as [|j|t] eqn:El; simpl.
    + split; [reflexivity | intros e He; discriminate He].
    + destruct (j <? i)%Z; (split; [reflexivity | intros e He; discriminate He]).
    + apply (Hbad _ (PInt i) (PStr t)); try reflexivity;
        [discriminate | discriminate | eexists; reflexivity].
  - destruct (last_notification_id h) as [|j|t] eqn:El; simpl.
    + split; [reflexivity | intros e He; discriminate He].
    + apply (Hbad _ (PStr s) (PInt j)); try reflexivity;
        [discriminate | discriminate | eexists; reflexivity].
    + destruct (String.ltb t s); (split; [reflexivity | intros e He; discriminate He]).
Qed.

Lemma newest_failures_app (tr tr' : list event) :
  newest_failures (tr ++ tr') = newest_failures tr ++ newest_failures tr'.
Proof. apply omap_app. Qed.

(** Every error that the [except] of [fetch_newest_notification] catches
    was raised by the classification of a value that the service sent. *)
Lemma untyped_fetch_newest_loop_failures (P : py_exn -> Prop) :
  (forall k uid x l h e,
      popup k uid = inr (x :: l) ->
      res (Untyped.compare_with_last (Some x) h) = Raise e -> P e) ->
  forall (fuel : nat) (d : Z) (h : MoodleNotificationHandler),
    Forall P (newest_failures (trace (Untyped.fetch_newest_loop popup fuel d h))).
Proof.
  intros HP. induction fuel as [|fuel IH]; intros d h; [constructor |].
  rewrite untyped_fetch_newest_loop_eq. cbv zeta.
  destruct (untyped_fetch_latest_loop_inv fuel 60 h) as (_ & H1 & Hr1 & Hfrom).
  fold (Untyped.fetch_latest_notification popup fuel h) in H1, Hr1, Hfrom.
  destruct (res (Untyped.fetch_latest_notification popup fuel h)) as [fetched|e|].
  - destruct (untyped_compare_with_last_failure fetched
                (final (Untyped.fetch_latest_notification popup fuel h))) as (H2 & Hraise).
    cbv zeta in H2, Hraise.
    destruct (res (Untyped.compare_with_last fetched _)) as [x|e|] eqn:E2; cbn [trace].
    + rewrite newest_failures_app, H1, H2. constructor.
    + rewrite !newest_failures_app, H1, H2. cbn.
      constructor; [| apply IH].
      destruct fetched as [x|].
      * destruct (Hfrom x eq_refl) as (k & uid & l & Hk). exact (HP k uid x l _ e Hk E2).
      * rewrite untyped_compare_with_last_eq in E2. discriminate E2.
    + rewrite newest_failures_app, H1, H2. constructor.
  - destruct (Hr1 e eq_refl).
  - cbn [trace]. rewrite H1. constructor.
Qed.

(** When the classification of the first fetch does not raise, the
    [except] is not entered at all. *)
Lemma untyped_first_pass (fuel : nat) (d : Z) (h : MoodleNotificationHandler) :
  (forall fetched e,
      res (Untyped.fetch_latest_notification popup (pred fuel) h) = Ret fetched ->
      res (Untyped.compare_with_last fetched
             (final (Untyped.fetch_latest_notification popup (pred fuel) h))) = Raise e ->
      False) ->
  newest_failures (trace (Untyped.fetch_newest_loop popup fuel d h)) = [].
Proof.
  intros Hno. destruct fuel as [|fuel]; [reflexivity |].
  cbn [pred] in Hno. rewrite untyped_fetch_newest_loop_eq. cbv zeta.
  destruct (untyped_fetch_latest_loop_inv fuel 60 h) as (_ & H1 & Hr1 & _).
  fold (Untyped.fetch_latest_notification popup fuel h) in H1, Hr1.
  destruct (res (Untyped.fetch_latest_notification popup fuel h)) as [fetched|e|] eqn:E1.
  - destruct (untyped_compare_with_last_failure fetched
                (final (Untyped.fetch_latest_notification popup fuel h))) as (H2 & _).
    cbv zeta in H2.
    destruct (res (Untyped.compare_with_last fetched _)) as [x|e|] eqn:E2; cbn [trace].
    + now rewrite newest_failures_app, H1, H2.
    + destruct (Hno fetched e eq_refl E2).
    + now rewrite newest_failures_app, H1, H2.
  - destruct (Hr1 e eq_refl).
  - cbn [trace]. exact H1.
Qed.

(** X6. The [except] branch of [fetch_newest_notification] is entered for
    two reasons only, whatever the service sends: the fetched notification
    is a truthy value that is no object, so that [notification.get] raises
    [AttributeError], or comparing the fetched id with the cursor raises
    [TypeError]. Failures of the request never reach it. For a service
    that sends no truthy value other than objects, only [TypeError] enters
    it; then it is not entered while the cursor is unset, nor when the
    cursor and the ids of the first notifications sent are integers (or
    missing). A truthy value that is no object does enter it, also with the
    cursor unset: the error is logged, the call sleeps 60 seconds and goes
    round again. *)
Theorem outer_retry_causes (fuel : nat) (h : MoodleNotificationHandler) :
  let r := Untyped.fetch_newest_notification popup fuel h in
  Forall (fun e => is_type_error e \/ e = AttributeError "get") (newest_failures (trace r))
  /\ ((forall k uid text l, popup k uid <> inr (Other text true :: l)) ->
      Forall is_type_error (newest_failures (trace r))
      /\ (last_notification_id h = PNone -> newest_failures (trace r) = [])
      /\ ((exists c, last_notification_id h = PInt c) ->
          (forall k uid n l,
              popup k uid = inr (Object n :: l) ->
              dict_get n "id" = PNone \/ exists i, dict_get n "id" = PInt i) ->
          newest_failures (trace r) = []))
  /\ (forall a uid text l fuel',
        api h = Some a -> moodle_user_id h = Some uid ->
        popup (requests a) uid = inr (Other text true :: l) ->
        fuel = S (S fuel') ->
        let again := Untyped.fetch_newest_loop popup (S fuel') 62 (requested a h) in
        trace r
        = [Log INFO FetchingNotifications; GetPopupNotifications uid;
           Log DEBUG (LatestFetchedText text);
           Log ERROR (NewestFailed (AttributeError "get"));
           Log INFO (RetryingIn 60); Sleep 60] ++ trace again
        /\ res r = res again /\ final r = final again).
Proof.
  cbv zeta. unfold Untyped.fetch_newest_notification.
  split; [| split].
  - apply untyped_fetch_newest_loop_failures.
    intros k uid x l h' e _ He.
    destruct (untyped_compare_with_last_failure (Some x) h') as (_ & Hr).
    destruct (Hr e He) as [(-> & _) | (Hty & _)]; [now right | now left].
  - intros Hschema.
    assert (Hty : forall fetched h' e,
               (forall x, fetched = Some x -> exists k uid l, popup k uid = inr (x :: l)) ->
               res (Untyped.compare_with_last fetched h') = Raise e ->
               is_type_error e /\ last_notification_id h' <> PNone
               /\ exists n, fetched = Some (Object n) /\ dict_get n "id" <> PNone
                            /\ py_gt (dict_get n "id") (last_notification_id h') = inl e).
    { intros fetched h' e Hfrom He.
      destruct (untyped_compare_with_last_failure fetched h') as (_ & Hr).
      destruct (Hr e He) as [(_ & text & ->) | H]; [| exact H].
      destruct (Hfrom _ eq_refl) as (k & uid & l & Hk).
      destruct (Hschema k uid text l Hk). }
    destruct (untyped_fetch_latest_loop_inv (pred fuel) 60 h) as (Hc & _ & _ & Hfrom).
    fold (Untyped.fetch_latest_notification popup (pred fuel) h) in Hc, Hfrom.
    split; [| split].
    + apply untyped_fetch_newest_loop_failures.
      intros k uid x l h' e Hk He.
      apply (Hty (Some x) h' e); [| exact He].
      intros y [= <-]. now exists k, uid, l.
    + intros Hunset. apply untyped_first_pass. intros fetched e Hret Hraise.
      destruct (Hty fetched _ e (fun x Hx => Hfrom x (eq_trans Hret (f_equal Ret Hx))) Hraise)
        as (_ & Hset & _).
      apply Hset. now rewrite Hc.
    + intros (c & Hcur) Hids. apply untyped_first_pass. intros fetched e Hret Hraise.
      destruct (Hty fetched _ e (fun x Hx => Hfrom x (eq_trans Hret (f_equal Ret Hx))) Hraise)
        as (_ & _ & n & -> & Hsome & Hgt).
      rewrite Hc, Hcur in Hgt.
      destruct (Hfrom _ Hret) as (k & uid & l & Hk).
      destruct (Hids k uid n l Hk) as [Hnone | (i & Hi)]; [contradiction |].
      rewrite Hi in Hgt. discriminate Hgt.
  - intros a uid text l fuel' Ha Hu Hk ->.
    rewrite untyped_fetch_newest_loop_eq. cbv zeta.
    unfold Untyped.fetch_latest_notification.
    rewrite untyped_fetch_latest_loop_eq, Ha, Hu, Hk. cbn [res final trace].
    rewrite untyped_compare_with_last_eq. cbn [Untyped.truthy res final trace].
    cbn [Untyped.latest_fetched app]. now repeat split.
Qed.

End OuterRetry.

(** On answers that keep to the schema, [Untyped] runs as [Moodle] does. *)
Section Schema.

Variable remote : Remote.

Lemma objects_after (tr : list event) (r : run MoodleNotificationHandler (option dict)) :
  Untyped.objects (after tr r) = after tr (Untyped.objects r).
Proof. now destruct r as [t h [x|e|]]. Qed.

Lemma untyped_fetch_latest_loop_schema (fuel : nat) :
  forall (d : Z) (h : MoodleNotificationHandler),
    Untyped.fetch_latest_loop (Untyped.of_remote remote) fuel d h
    = Untyped.objects (fetch_latest_loop remote fuel d h).
Proof.
  induction fuel as [|fuel IH]; intros d h; [reflexivity |].
  rewrite untyped_fetch_latest_loop_eq, fetch_latest_loop_eq. unfold Untyped.of_remote.
  destruct (api h) as [a|]; [destruct (moodle_user_id h) as [uid|] |].
  - destruct (moodle_get_popup_notifications remote (requests a) uid) as [e|[|n l]];
      [| reflexivity | reflexivity].
    now rewrite objects_after, <- IH.
  - now rewrite objects_after, <- IH.
  - now rewrite objects_after, <- IH.
Qed.

Lemma untyped_compare_with_last_schema (fetched : option dict)
    (h : MoodleNotificationHandler) :
  Untyped.compare_with_last (option_map Object fetched) h
  = Untyped.objects (compare_with_last fetched h).
Proof.
  rewrite untyped_compare_with_last_eq, compare_with_last_eq.
  destruct fetched as [n|]; [| reflexivity]. cbn [option_map Untyped.truthy].
  destruct (dict_truthy n); [| reflexivity].
  destruct (dict_get n "id") as [|i|s]; [reflexivity | |];
    destruct (last_notification_id h) as [|j|t]; try reflexivity.
  - cbn [py_gt]. now destruct (j <? i)%Z.
  - cbn [py_gt]. now destruct (String.ltb t s).
Qed.

Lemma untyped_fetch_newest_loop_schema (fuel : nat) :
  forall (d : Z) (h : MoodleNotificationHandler),
    Untyped.fetch_newest_loop (Untyped.of_remote remote) fuel d h
    = Untyped.objects (fetch_newest_loop remote fuel d h).
Proof.
  induction fuel as [|fuel IH]; intros d h; [reflexivity |].
  rewrite untyped_fetch_newest_loop_eq, fetch_newest_loop_eq. cbv zeta.
  unfold Untyped.fetch_latest_notification, fetch_latest_notification.
  rewrite untyped_fetch_latest_loop_schema.
  destruct (fetch_latest_loop remote fuel 60 h) as [t1 h1 [fetched|e|]];
    cbn [Untyped.objects res trace final].
  - rewrite untyped_compare_with_last_schema.
    destruct (compare_with_last fetched h1) as [t2 h2 [x|e|]];
      cbn [Untyped.objects res trace final]; [reflexivity | | reflexivity].
    rewrite IH.
    now destruct (fetch_newest_loop remote fuel (d + 2) h2) as [t3 h3 [x|e'|]].
  - rewrite IH.
    now destruct (fetch_newest_loop remote fuel (d + 2) h1) as [t3 h3 [x|e'|]].
  - reflexivity.
Qed.

End Schema.

(** X6, on a service whose first answer holds a string where a notification
    should be: with the cursor unset the [except] is entered once, the call
    sleeps 60 seconds and the second answer is returned. *)
Lemma outer_retry_causes_witness :
  let r := Untyped.fetch_newest_notification off_schema 4 (handler PNone) in
  newest_failures (trace r) = [AttributeError "get"]
  /\ sleeps (trace r) = [60]
  /\ res r = Ret (Some (Object (notification 7))).
Proof.
  destruct (outer_retry_causes off_schema 4 (handler PNone)) as (_ & _ & H).
  destruct (H _ 7 "'maintenance'" [] 2%nat eq_refl eq_refl eq_refl eq_refl)
    as (Htr & Hres & _).
  cbv zeta. rewrite Htr, Hres. vm_compute. repeat split.
Defined.

(** * Further properties of dispatch *)

Ltac flag_facts :=
  repeat match goal with
         | H : (_ =? _)%Z = true |- _ => apply Z.eqb_eq in H
         | H : (_ =? _)%Z = false |- _ => apply Z.eqb_neq in H
         end.

Lemma set_moodle_handler_same (s : NotificationSender) :
  set_moodle_handler (moodle_handler s) s = s.
Proof. now destruct s. Qed.

Section Dispatch.

Variable remote : Remote.

(** X7. In every dispatch each sink receives at most one deliver call,
    Pushbullet before Discord: Pushbullet is given the key, the subject and
    the summary (not the text), Discord the subject, the text and the
    summary with some identity. The sender object is the same after the
    call as before. *)
Theorem send_delivers_at_most_once (subject text summary : string)
    (useridfrom : option Z) (s : NotificationSender) :
  let r := send_body remote subject text summary useridfrom s in
  let pushbullet := PushbulletSend (pushbullet_key s) subject summary in
  (deliveries (trace r) = []
   \/ deliveries (trace r) = [pushbullet]
   \/ (exists fullname picture_url,
         deliveries (trace r) = [DiscordSend subject text summary fullname picture_url])
   \/ (exists fullname picture_url,
         deliveries (trace r)
         = [pushbullet; DiscordSend subject text summary fullname picture_url]))
  /\ final r = s
  /\ res r <> Diverge.
Proof.
  cbv zeta. send_unfold. run_split.
  all: cbn [res trace final]; rewrite ?set_moodle_handler_same.
  all: (split; [| split; [reflexivity | discriminate]]).
  all: first [ left; reflexivity
             | right; left; reflexivity
             | right; right; left; do 2 eexists; reflexivity
             | right; right; right; do 2 eexists; reflexivity ].
Qed.

(** X8. A sink is called only when its state is exactly 1. With Pushbullet
    disabled no Pushbullet call is made; with Discord disabled no Discord
    call and no sender lookup is made, and unless the Pushbullet call has
    raised the run logs "No notification service selected" and returns,
    also when Pushbullet has just delivered. With both disabled the whole
    run is that one log record. *)
Theorem disabled_sink_is_not_called (subject text summary : string)
    (useridfrom : option Z) (s : NotificationSender) :
  let r := send_body remote subject text summary useridfrom s in
  (pushbullet_state s <> 1 -> pushbullet_deliveries (trace r) = [])
  /\ (webhook_state s <> 1 ->
      discord_deliveries (trace r) = [] /\ lookups (trace r) = []
      /\ (res r = Ret tt <-> In (Log INFO NoServiceSelected) (trace r))
      /\ (res r = Ret tt \/
          exists e, res r = Raise e /\ pushbullet_state s = 1
                    /\ pushbullet_send_notification remote (pushbullet_key s) subject summary
                       = Some e))
  /\ (pushbullet_state s <> 1 -> webhook_state s <> 1 ->
      r = Run [Log INFO NoServiceSelected] s (Ret tt)).
Proof.
  cbv zeta. send_unfold. run_split.
  all: cbn [res trace final]; rewrite ?set_moodle_handler_same; flag_facts.
  all: split; [intros Hpb; first [contradiction | reflexivity] |].
  all: split; [| intros Hpb Hwh; first [contradiction | reflexivity]].
  all: intros Hwh; try contradiction.
  all: split; [reflexivity |]; split; [reflexivity |].
  all: split;
    [ split; [intros Hret; first [discriminate Hret | cbn [In]; tauto]
             | intros Hin; first [reflexivity | exfalso; in_trace Hin] ]
    | first [ left; reflexivity
            | right; eexists; split; [reflexivity | split; [assumption | reflexivity]] ] ].
Qed.

End Dispatch.

(** X8, with both sinks disabled, and with only Pushbullet enabled. *)
Lemma disabled_sink_is_not_called_witness :
  send_body (healthy (fun _ => [])) "subject" "text" "summary" (Some 42) (sender 0 0)
  = Run [Log INFO NoServiceSelected] (sender 0 0) (Ret tt)
  /\ discord_deliveries
       (trace (send_body (healthy (fun _ => [])) "subject" "text" "summary" (Some 42)
                 (sender 1 0))) = []
  /\ pushbullet_deliveries
       (trace (send_body (healthy (fun _ => [])) "subject" "text" "summary" (Some 42)
                 (sender 0 1))) = [].
Proof.
  split; [| split].
  - destruct (disabled_sink_is_not_called (healthy (fun _ => [])) "subject" "text" "summary"
                (Some 42) (sender 0 0)) as (_ & _ & H).
    apply H; discriminate.
  - destruct (disabled_sink_is_not_called (healthy (fun _ => [])) "subject" "text" "summary"
                (Some 42) (sender 1 0)) as (_ & H & _).
    apply H. discriminate.
  - destruct (disabled_sink_is_not_called (healthy (fun _ => [])) "subject" "text" "summary"
                (Some 42) (sender 0 1)) as (H & _).
    apply H. discriminate.
Defined.


Section Identity.

Variable remote : Remote.

(** X9. Without a sender id no lookup is made, and a Discord call, if any,
    carries the default identity. When Discord is enabled and the
    Pushbullet stage does not raise, that call is made, and the run ends as
    the call does. *)
Theorem default_identity_without_lookup (subject text summary : string)
    (s : NotificationSender) :
  let r := send_body remote subject text summary None s in
  let call := DiscordSend subject text summary default_fullname default_profile_url in
  lookups (trace r) = []
  /\ (discord_deliveries (trace r) = [] \/ discord_deliveries (trace r) = [call])
  /\ (webhook_state s = 1 ->
      pushbullet_state s <> 1
      \/ pushbullet_send_notification remote (pushbullet_key s) subject summary = None ->
      discord_deliveries (trace r) = [call]
      /\ res r = match discord_call remote subject text summary default_fullname
                         default_profile_url with
                 | Some e => Raise e
                 | None => Ret tt
                 end).
Proof.
  cbv zeta. send_unfold. run_split.
  all: cbn [res trace final]; flag_facts.
  all: split; [reflexivity |].
  all: split; [first [left; reflexivity | right; reflexivity] |].
  all: intros Hwh Hpb; try contradiction.
  all: try (exfalso; destruct Hpb as [Hpb | Hpb]; [contradiction | congruence]).
  all: split; reflexivity.
Qed.

End Identity.

(** X9, with both sinks enabled and working. *)
Lemma default_identity_without_lookup_witness :
  discord_deliveries
    (trace (send_body (healthy (fun _ => [])) "subject" "text" "summary" None (sender 1 1)))
  = [DiscordSend "subject" "text" "summary" default_fullname default_profile_url]
  /\ res (send_body (healthy (fun _ => [])) "subject" "text" "summary" None (sender 1 1))
     = Ret tt.
Proof.
  destruct (default_identity_without_lookup (healthy (fun _ => [])) "subject" "text"
              "summary" (sender 1 1)) as (_ & _ & H).
  apply H; [reflexivity | right; reflexivity].
Defined.


Section Lookup_identity.

Variable remote : Remote.

(** X10. With a sender id, a Discord call is made only with the identity of
    the looked-up user: if the run calls Discord with [fullname] and
    [picture_url], then the lookup by "id" answered a list whose first
    user has exactly these two fields. In particular the default identity
    is not substituted for a sender that cannot be resolved. *)
Theorem discord_identity_is_looked_up (subject text summary : string) (uid : Z)
    (s : NotificationSender) (fullname picture_url : pyval)
    (Hcall : In (DiscordSend subject text summary fullname picture_url)
                (trace (send_body remote subject text summary (Some uid) s))) :
  exists user others,
    moodle_get_users_by_field remote "id" (py_str_of_int uid) = inr (user :: others)
    /\ user !! "fullname" = Some fullname
    /\ user !! "profileimageurl" = Some picture_url
    /\ lookups (trace (send_body remote subject text summary (Some uid) s))
       = [("id", py_str_of_int uid)]
    /\ webhook_state s = 1.
Proof.
  revert Hcall. send_unfold. run_split.
  all: cbn [res trace final]; flag_facts.
  all: intros Hcall; in_trace Hcall.
  all: injection Hcall as <- <-.
  all: do 2 eexists; repeat (split; [reflexivity || eassumption |]); assumption.
Qed.


End Lookup_identity.

(** X10, for user 42 of the healthy service. *)
Lemma discord_identity_is_looked_up_witness :
  exists user others,
    moodle_get_users_by_field (healthy (fun _ => [])) "id" (py_str_of_int 42)
    = inr (user :: others)
    /\ user !! "fullname" = Some (PStr "Ada Lovelace")
    /\ user !! "profileimageurl" = Some (PStr "https://moodle.example/ada.png")
    /\ lookups (trace (send_body (healthy (fun _ => [])) "subject" "text" "summary"
                         (Some 42) (sender 1 1)))
       = [("id", py_str_of_int 42)]
    /\ webhook_state (sender 1 1) = 1.
Proof.
  apply (discord_identity_is_looked_up (healthy (fun _ => [])) "subject" "text" "summary"
           42 (sender 1 1)).
  vm_compute. auto 10.
Defined.


Section Sender_construction.

Variable remote : Remote.

(** X12. The body of [NotificationSender.__init__] reads the two [ENABLED]
    flags with [int] before it contacts anything: a flag that is absent or
    is not an integer literal makes it raise at once, with no log record and
    no call to Moodle. When it returns, the object holds the two parsed
    flags, the key and the webhook URL as configured ([None] if absent),
    the given bot name and thumbnail, and the handler that
    [MoodleNotificationHandler(config)] returned. *)
Theorem sender_construction (cfg : Config) (bot thumb : string) :
  let r := Notification.init_body remote cfg bot thumb () in
  (forall e, py_int (get_config cfg "pushbullet" "ENABLED") = inl e ->
             r = Run [] () (Raise e))
  /\ (forall n e, py_int (get_config cfg "pushbullet" "ENABLED") = inr n ->
                  py_int (get_config cfg "discord" "ENABLED") = inl e ->
                  r = Run [] () (Raise e))
  /\ match res r with
     | Ret obj =>
         py_int (get_config cfg "pushbullet" "ENABLED") = inr (pushbullet_state obj)
         /\ py_int (get_config cfg "discord" "ENABLED") = inr (webhook_state obj)
         /\ pushbullet_key obj
            = pyval_of_option (get_config cfg "pushbullet" "PUSHBULLET_API_KEY")
         /\ webhook_url obj = pyval_of_option (get_config cfg "discord" "WEBHOOK_URL")
         /\ bot_name obj = bot /\ thumbnail obj = thumb
         /\ res (Moodle.new remote cfg ()) = Ret (moodle_handler obj)
         /\ trace r = trace (Moodle.new remote cfg ())
     | _ => True
     end.
Proof.
  cbv zeta. unfold Notification.init_body. outcome_split.
  all: rewrite ?app_nil_r.
  all: split; [intros e' He'; first [discriminate He' | now injection He' as <-] |].
  all: split;
    [ intros n' e' Hn' He';
      first [discriminate Hn' | discriminate He' | now injection He' as <-] |].
  all: first [exact I | now repeat split].
Qed.

End Sender_construction.

(** X12, on a configuration without [pushbullet.ENABLED] and on one whose
    [discord.ENABLED] is not a number. *)
Lemma sender_construction_witness :
  (exists e, Notification.init_body (healthy (fun _ => []))
               (delete ("pushbullet", "ENABLED") full_config) "MoodleStalker" "logo" ()
             = Run [] () (Raise e))
  /\ (exists e, Notification.init_body (healthy (fun _ => []))
                  (<[("discord", "ENABLED") := "yes"]> full_config) "MoodleStalker" "logo" ()
                = Run [] () (Raise e)).
Proof.
  split.
  - eexists.
    destruct (sender_construction (healthy (fun _ => []))
                (delete ("pushbullet", "ENABLED") full_config) "MoodleStalker" "logo")
      as (H & _).
    apply H. vm_compute. reflexivity.
  - eexists.
    destruct (sender_construction (healthy (fun _ => []))
                (<[("discord", "ENABLED") := "yes"]> full_config) "MoodleStalker" "logo")
      as (_ & H & _).
    apply (H 1); vm_compute; reflexivity.
Defined.

(** * Properties of the text clean-up *)

Import Converter.

Lemma re_sub_from_sublist (pat : list re_item) (s : list ascii) :
  forall skip, sublist (re_sub_from pat skip s) s.
Proof.
  induction s as [|x s IH]; intros skip; [constructor |].
  cbn [re_sub_from]. destruct skip as [|k]; [| apply sublist_cons, IH].
  destruct (match_here pat (x :: s)); [apply sublist_cons, IH | apply sublist_skip, IH].
Qed.

Lemma remove_from_sublist (old s : list ascii) :
  forall skip, sublist (remove_from old skip s) s.
Proof.
  induction s as [|x s IH]; intros skip; [constructor |].
  cbn [remove_from]. destruct skip as [|k]; [| apply sublist_cons, IH].
  destruct (starts_with old (x :: s)); [apply sublist_cons, IH | apply sublist_skip, IH].
Qed.

(** X13. [clean_converted_text] only deletes: the cleaned text is a
    subsequence of the given text, so it is never longer and contains no
    character that was not there. *)
Theorem clean_only_deletes (text : string) :
  sublist (list_ascii_of_string (clean_converted_text text)) (list_ascii_of_string text)
  /\ (String.length (clean_converted_text text) <= String.length text)%nat.
Proof.
  assert (Hsub : sublist (list_ascii_of_string (clean_converted_text text))
                   (list_ascii_of_string text)).
  { unfold clean_converted_text, str_remove, re_sub.
    rewrite list_ascii_of_string_of_list_ascii.
    etransitivity; [apply remove_from_sublist | apply re_sub_from_sublist]. }
  split; [exact Hsub |].
  apply sublist_length in Hsub.
  assert (Hlen : forall t, String.length t = List.length (list_ascii_of_string t)).
  { induction t as [|c t IHt]; [reflexivity | cbn; now rewrite IHt]. }
  now rewrite !Hlen.
Qed.

Lemma re_sub_from_no_start (c : ascii) (pat : list re_item) (s : list ascii) :
  ~ In c s -> re_sub_from (Lit c :: pat) 0 s = s.
Proof.
  induction s as [|x s IH]; intros Hc; [reflexivity |].
  cbn [re_sub_from match_here].
  destruct (Ascii.eqb_spec x c) as [-> | Hne]; [destruct Hc; now left |].
  f_equal. apply IH. intros Hin. apply Hc. now right.
Qed.

Lemma remove_from_no_start (c : ascii) (old s : list ascii) :
  ~ In c s -> remove_from (c :: old) 0 s = s.
Proof.
  induction s as [|x s IH]; intros Hc; [reflexivity |].
  cbn [remove_from starts_with].
  destruct (Ascii.eqb_spec x c) as [-> | Hne]; [destruct Hc; now left |].
  cbn [andb]. f_equal. apply IH. intros Hin. apply Hc. now right.
Qed.

(** X14. A text that contains neither an opening square bracket nor an
    asterisk is returned unchanged. *)
Theorem clean_without_markup (text : string)
    (Hbracket : ~ In "["%char (list_ascii_of_string text))
    (Hstar : ~ In "*"%char (list_ascii_of_string text)) :
  clean_converted_text text = text.
Proof.
  unfold clean_converted_text, str_remove, re_sub, reg.
  rewrite (re_sub_from_no_start _ _ _ Hbracket).
  change (list_ascii_of_string "* * *")
    with ("*"%char :: list_ascii_of_string " * *").
  rewrite (remove_from_no_start _ _ _ Hstar).
  apply string_of_list_ascii_of_string.
Qed.

(** X14, on a plain sentence. *)
Lemma clean_without_markup_witness :
  clean_converted_text "Your grade for Exam 1 (part a) is 1.3" = "Your grade for Exam 1 (part a) is 1.3".
Proof.
  apply clean_without_markup; vm_compute; intuition discriminate.
Defined.

(** What the clean-up does to a converted message: the linked image and the
    horizontal rule go, the rest stays. *)
Example clean_sample :
  clean_converted_text "Dear all, [![logo](https://m.example/l.png)](https://m.example) * * * see you"
  = "Dear all,   see you".
Proof. vm_compute. reflexivity. Qed.

(** The two equations of [.*]. *)
Lemma match_star_cons (pat : list re_item) (x : ascii) (s : list ascii) :
  match_here (AnyStar :: pat) (x :: s) =
  if Ascii.eqb x newline then match_here pat (x :: s)
  else match match_here (AnyStar :: pat) s with
       | Some rest => Some rest
       | None => match_here pat (x :: s)
       end.
Proof. reflexivity. Qed.

Lemma match_star_nil (pat : list re_item) :
  match_here (AnyStar :: pat) [] = match_here pat [].
Proof. reflexivity. Qed.

(** A match never runs over a line break. *)
Lemma match_here_prefix (pat : list re_item) :
  Forall (fun it => it <> Lit newline) pat ->
  forall s rest,
    match_here pat s = Some rest ->
    exists pre, s = pre ++ rest /\ Forall (fun c => c <> newline) pre.
Proof.
  induction pat as [|it pat IH]; intros Hlits s rest Hm.
  - injection Hm as <-. exists []. split; [reflexivity | constructor].
  - apply List.Forall_cons_iff in Hlits. destruct Hlits as (Hit & Hlits).
    specialize (IH Hlits). destruct it as [c|].
    + destruct s as [|x s]; [discriminate Hm |]. cbn [match_here] in Hm.
      destruct (Ascii.eqb_spec x c) as [-> | Hne]; [| discriminate Hm].
      destruct (IH s rest Hm) as (pre & -> & Hpre).
      exists (c :: pre). split; [reflexivity |].
      constructor; [| exact Hpre]. intros ->. now apply Hit.
    + revert rest Hm. induction s as [|x s IHs]; intros rest Hm.
      * rewrite match_star_nil in Hm. now apply IH.
      * rewrite match_star_cons in Hm.
        destruct (Ascii.eqb_spec x newline) as [-> | Hne]; [now apply IH |].
        destruct (match_here (AnyStar :: pat) s) as [r|] eqn:Es; [| now apply IH].
        injection Hm as <-. destruct (IHs r eq_refl) as (pre & -> & Hpre).
        exists (x :: pre). split; [reflexivity |]. now constructor.
Qed.

Lemma count_newline_cons (x : ascii) (s : list ascii) :
  x <> newline ->
  count_occ Ascii.ascii_dec (x :: s) newline = count_occ Ascii.ascii_dec s newline.
Proof. intros Hx. now apply count_occ_cons_neq. Qed.

Lemma re_sub_from_line_breaks (c : ascii) (pat : list re_item) (s : list ascii) :
  Forall (fun it => it <> Lit newline) (Lit c :: pat) ->
  forall skip,
    Forall (fun x => x <> newline) (firstn skip s) ->
    count_occ Ascii.ascii_dec (re_sub_from (Lit c :: pat) skip s) newline
    = count_occ Ascii.ascii_dec s newline.
Proof.
  intros Hlits. induction s as [|x s IH]; intros skip Hskip; [reflexivity |].
  cbn [re_sub_from]. destruct skip as [|k].
  - destruct (match_here (Lit c :: pat) (x :: s)) as [rest|] eqn:Em.
    + destruct (match_here_prefix _ Hlits _ _ Em) as (pre & Hs & Hpre).
      destruct pre as [|y pre].
      { exfalso. cbn [match_here] in Em.
        destruct (Ascii.eqb x c); [| discriminate Em].
        destruct (match_here_prefix pat (Forall_inv_tail Hlits) _ _ Em) as (pre & Hs' & _).
        cbn [app] in Hs. subst rest.
        apply (f_equal (@List.length ascii)) in Hs'.
        rewrite length_app in Hs'. cbn [List.length] in Hs'. lia. }
      cbn [app] in Hs. injection Hs as <- ->.
      apply List.Forall_cons_iff in Hpre. destruct Hpre as (Hx & Hpre).
      rewrite (count_newline_cons x _ Hx). apply IH.
      cbn [List.length]. rewrite length_app.
      replace (S (List.length pre + List.length rest) - List.length rest - 1)%nat
        with (List.length pre) by lia.
      now rewrite firstn_app, Nat.sub_diag, firstn_all, firstn_O, app_nil_r.
    + cbn [count_occ]. rewrite (IH 0%nat (List.Forall_nil _)). reflexivity.
  - cbn [firstn] in Hskip. apply List.Forall_cons_iff in Hskip.
    destruct Hskip as (Hx & Hskip).
    rewrite (count_newline_cons x _ Hx). now apply IH.
Qed.

Lemma starts_with_firstn (old s : list ascii) :
  starts_with old s = true -> firstn (List.length old) s = old.
Proof.
  revert s. induction old as [|c old IH]; intros s Hs; [reflexivity |].
  destruct s as [|x s]; [discriminate Hs |]. cbn [starts_with] in Hs.
  apply andb_true_iff in Hs. destruct Hs as (Hx & Hs).
  apply Ascii.eqb_eq in Hx. subst x. cbn. f_equal. now apply IH.
Qed.

Lemma remove_from_line_breaks (c : ascii) (old s : list ascii) :
  Forall (fun x => x <> newline) (c :: old) ->
  forall skip,
    Forall (fun x => x <> newline) (firstn skip s) ->
    count_occ Ascii.ascii_dec (remove_from (c :: old) skip s) newline
    = count_occ Ascii.ascii_dec s newline.
Proof.
  intros Hold. induction s as [|x s IH]; intros skip Hskip; [reflexivity |].
  cbn [remove_from]. destruct skip as [|k].
  - destruct (starts_with (c :: old) (x :: s)) eqn:Es.
    + apply starts_with_firstn in Es. cbn [List.length firstn] in Es.
      injection Es as -> Es.
      apply List.Forall_cons_iff in Hold. destruct Hold as (Hc & Hold').
      rewrite (count_newline_cons c _ Hc). apply IH.
      cbn [List.length].
      replace (S (List.length old) - 1)%nat with (List.length old) by lia.
      rewrite Es. exact Hold'.
    + cbn [count_occ]. rewrite (IH 0%nat (List.Forall_nil _)). reflexivity.
  - cbn [firstn] in Hskip. apply List.Forall_cons_iff in Hskip.
    destruct Hskip as (Hx & Hskip).
    rewrite (count_newline_cons x _ Hx). now apply IH.
Qed.

(** X15. The clean-up never removes a line break: what the regular
    expression and the rule deletion take away lies within a line, so the
    cleaned text has as many line breaks as the given text. *)
Theorem clean_keeps_line_breaks (text : string) :
  count_occ Ascii.ascii_dec (list_ascii_of_string (clean_converted_text text)) newline
  = count_occ Ascii.ascii_dec (list_ascii_of_string text) newline.
Proof.
  unfold clean_converted_text, str_remove, re_sub, reg.
  rewrite list_ascii_of_string_of_list_ascii.
  change (list_ascii_of_string "* * *")
    with ("*"%char :: list_ascii_of_string " * *").
  rewrite remove_from_line_breaks.
  - apply re_sub_from_line_breaks; [| constructor].
    repeat (constructor; [discriminate |]). constructor.
  - cbn. repeat (constructor; [discriminate |]). constructor.
  - constructor.
Qed.

(** * The fetch and the classification together *)

(** The classification reads nothing of the handler but the cursor, and it
    neither sleeps nor calls the service. *)
Lemma compare_with_last_cursor_only (fetched : option dict)
    (h h' : MoodleNotificationHandler) :
  last_notification_id h' = last_notification_id h ->
  res (compare_with_last fetched h') = res (compare_with_last fetched h)
  /\ trace (compare_with_last fetched h') = trace (compare_with_last fetched h)
  /\ last_notification_id (final (compare_with_last fetched h'))
     = last_notification_id (final (compare_with_last fetched h))
  /\ sleeps (trace (compare_with_last fetched h)) = []
  /\ polls (trace (compare_with_last fetched h)) = [].
Proof.
  intros Hc. rewrite !compare_with_last_eq, Hc.
  destruct fetched as [n|]; [| now repeat split].
  destruct (dict_truthy n); [| now repeat split].
  destruct (dict_get n "id") as [|i|s]; [now repeat split | |];
    destruct (last_notification_id h) as [|j|t] eqn:El; simpl; rewrite ?El;
    try (now repeat split).
  - destruct (j <? i)%Z; simpl; rewrite ?El; now repeat split.
  - destruct (String.ltb t s); simpl; rewrite ?El; now repeat split.
Qed.

(** X16. Transient failures delay a poll and change nothing else: when the
    service refuses [k] requests and then answers [v],
    [fetch_newest_notification] (given fuel for [k + 2] passes) sleeps 60,
    62, ..., 60 + 2 (k - 1) seconds and then ends exactly as the
    classification of the first notification of [v] at the handler's
    cursor does: the same value or error-free verdict, the same cursor. *)
Theorem failures_only_delay (remote : Remote) (h : MoodleNotificationHandler)
    (a : MoodleAPI) (uid : Z) (k fuel : nat) (v : list dict)
    (Ha : api h = Some a) (Hu : moodle_user_id h = Some uid)
    (Hfail : forall i, (i < k)%nat ->
       exists e, moodle_get_popup_notifications remote (requests a + i) uid = inl e)
    (Hok : moodle_get_popup_notifications remote (requests a + k) uid = inr v)
    (Hfuel : (k + 1 < fuel)%nat)
    (Hcomparable : forall e, res (compare_with_last (head v) h) <> Raise e) :
  let r := fetch_newest_notification remote fuel h in
  let c := compare_with_last (head v) h in
  res r = res c
  /\ verdicts (trace r) = verdicts (trace c)
  /\ last_notification_id (final r) = last_notification_id (final c)
  /\ sleeps (trace r) = map (fun i => 60 + 2 * Z.of_nat i) (seq 0 k)
  /\ polls (trace r) = repeat uid (S k).
Proof.
  cbv zeta. destruct fuel as [|fuel]; [lia |].
  unfold fetch_newest_notification. rewrite fetch_newest_loop_eq. cbv zeta.
  destruct (fetch_latest_backoff remote k fuel 60 h a uid v Ha Hu Hfail Hok ltac:(lia))
    as (Hr1 & Hs1 & Hp1).
  destruct (fetch_latest_loop_inv remote fuel 60 h) as (Hc1 & Hq1 & _).
  fold (fetch_latest_notification remote fuel h) in Hr1, Hs1, Hp1, Hc1, Hq1.
  rewrite Hr1.
  destruct (compare_with_last_cursor_only (head v) h
              (final (fetch_latest_notification remote fuel h)) Hc1)
    as (Hres & Htr & Hcur & Hsl & Hpo).
  destruct (res (compare_with_last (head v)
                   (final (fetch_latest_notification remote fuel h)))) as [x|e|] eqn:E.
  - cbn [res trace final]. rewrite Htr. unfold verdicts, sleeps, polls in *.
    rewrite !omap_app, Hs1, Hp1, Hsl, Hpo, !app_nil_r.
    fold (verdicts (trace (fetch_latest_notification remote fuel h))).
    rewrite (quiet_verdicts _ Hq1). now repeat split.
  - rewrite Hres in E. now destruct (Hcomparable e).
  - now apply compare_with_last_total in E.
Qed.

(** X16, after two refused requests at cursor 5. *)
Lemma failures_only_delay_witness :
  let r := fetch_newest_notification (flaky 2 (fun _ => [notification 7])) 4
             (handler (PInt 5)) in
  res r = Ret (Some (notification 7))
  /\ verdicts (trace r) = [New (PInt 7)]
  /\ last_notification_id (final r) = PInt 7
  /\ sleeps (trace r) = [60; 62]
  /\ polls (trace r) = [7; 7; 7].
Proof.
  apply (failures_only_delay (flaky 2 (fun _ => [notification 7])) (handler (PInt 5)) _ 7
           2 4 [notification 7] eq_refl eq_refl).
  - intros i Hi. eexists. cbn.
    destruct i as [|[|i]]; [reflexivity | reflexivity | lia].
  - reflexivity.
  - lia.
  - intros e. vm_compute. discriminate.
Defined.
